(** * vlan_generator.py: the VLAN configuration generator

    A shallow embedding of [src/vlan_generator.py] and the properties of
    its configuration text, its inventory loader, its output files and its
    batch loop.

    Python values are modelled as follows.
    - [str] is [string], [int] is [Z], a list is a [list], a dict with
      string keys is a [gmap string _].
    - [str(n)] for an int is stdpp's [pretty], which prints the same
      decimal text (a leading "-" for negatives, no leading zeros).
    - Code that prints, reads the inventory or writes files runs in a
      state-and-exception monad over a [world].
    - Paths follow [pathlib] on POSIX: [/] drops "." components and lets
      an absolute right-hand side replace the left-hand side.
    - The inventory is taken after parsing: a path either is absent, or
      holds text that [yaml.safe_load] rejects, or holds a document.
      Device fields are strings.
    - The output store is ideal: the operating system never refuses to
      make a directory or to open a file for writing. Where a statement
      promises that a directory is made or a file written, it assumes
      what [Path.mkdir] and [open] need: [file_name_safe], [can_save],
      [store_ready]. *)

From Stdlib Require Import Ascii String ZArith Lia.
From stdpp Require Import base gmap strings list pretty.

#[local] Set Warnings "-register-all".
#[local] Open Scope Z_scope.

(** ** Python primitives used by the script *)

Module Py.

(** The one-character string "\n". *)
Definition NL : string := String "010"%char "".

(** [range(start, stop)]: the ints from [start] up to, not including,
    [stop]; empty when [stop <= start]. *)
Definition range (start stop : Z) : list Z := seqZ start (stop - start).

(** [c * n] for a one-character string [c]. *)
Fixpoint repeat_char (c : ascii) (n : nat) : string :=
  match n with
  | O => ""
  | S n' => String c (repeat_char c n')
  end.

(** [f"{n}"] for an int: its decimal text. *)
Definition format_d (n : Z) : string := pretty n.

(** [f"{n:03d}"] for an int: the sign, then the decimal digits of [|n|]
    preceded by as many "0" as it takes to reach three characters in all;
    nothing is ever cut off. *)
Definition format_03d (n : Z) : string :=
  let sign := if bool_decide (n < 0) then "-" else "" in
  let digits := pretty (Z.abs n) in
  sign +:+ repeat_char "0" (3 - String.length sign - String.length digits)
       +:+ digits.

(** [sep.join(l)]. *)
Fixpoint join (sep : string) (l : list string) : string :=
  match l with
  | [] => ""
  | [x] => x
  | x :: rest => x +:+ sep +:+ join sep rest
  end.

(** [l.append(x)], on the list held in a variable. *)
Definition append (l : list string) (x : string) : list string := l ++ [x].

(** [s.split(sep)] for a one-character separator. *)
Fixpoint split (sep : ascii) (s : string) : list string :=
  match s with
  | "" => [""]
  | String c s' =>
      if bool_decide (c = sep) then "" :: split sep s'
      else match split sep s' with
           | [] => [String c ""]
           | x :: xs => String c x :: xs
           end
  end.

(** *** pathlib, POSIX flavour

    A path is its root ("", "/" or "//") and its components; parsing drops
    empty and "." components and keeps "..". *)
Record Path := { root : string; parts : list string }.

(** [s[:1] == c]. *)
Definition starts_with (c : ascii) (s : string) : bool :=
  match s with
  | "" => false
  | String x _ => bool_decide (x = c)
  end.

(** [s[1:]]. *)
Definition tail (s : string) : string :=
  match s with
  | "" => ""
  | String _ s' => s'
  end.

(** [posixpath.splitroot], without the drive, which is always empty: one
    leading slash, or exactly two, is the root; three or more count as
    one. *)
Definition splitroot (p : string) : string * string :=
  if negb (starts_with "/" p) then ("", p)
  else if negb (starts_with "/" (tail p)) || starts_with "/" (tail (tail p))
       then ("/", tail p)
       else ("//", tail (tail p)).

Definition is_component (x : string) : bool :=
  negb (bool_decide (x = "")) && negb (bool_decide (x = ".")).

(** [Path(s)]. *)
Definition parse_path (s : string) : Path :=
  let '(r, rel) := splitroot s in
  {| root := r; parts := List.filter is_component (split "/" rel) |}.

(** [str(p)]. *)
Definition path_str (p : Path) : string :=
  let s := root p +:+ join "/" (parts p) in
  if bool_decide (s = "") then "." else s.

(** [p / key]: an absolute [key] replaces [p]; a relative one adds its
    components to those of [p]. *)
Definition truediv (p : Path) (key : string) : Path :=
  let k := parse_path key in
  if bool_decide (root k = "") then {| root := root p; parts := parts p ++ parts k |}
  else k.

End Py.

(** ** Values read from the inventory

    What [yaml.safe_load] hands back, to the depth the script looks at it:
    [None] (an empty document or a null), a list of device mappings with
    string fields, or a mapping with string keys. *)
Inductive pyobj :=
| PyNone
| PyList (l : list (gmap string string))
| PyDict (d : gmap string pyobj).

(** What is behind an inventory path that exists: text the YAML parser
    rejects with a message, or a document. *)
Inductive yaml_file :=
| Malformed (msg : string)
| Document (doc : pyobj).

(** ** Effects *)

Inductive exn :=
| FileNotFoundError
| YAMLError (msg : string)
| AttributeError
| KeyError (key : string)
| TypeError.

Inductive result (A : Type) :=
| Ok (a : A)
| Raise (e : exn).
Arguments Ok {A} a.
Arguments Raise {A} e.

(** The world of one run.
    - [stdout]: the argument of every [print] call so far, oldest first.
    - [dirs], [files]: the directories made and the files written, by the
      text of their path. The store is ideal: making a directory and
      opening a file for writing always succeed.
    - [inventories]: the inventory files on disk, by path; the script only
      reads them. *)
Record world := World {
  stdout : list string;
  dirs : gset string;
  files : gmap string string;
  inventories : gmap string yaml_file
}.

Definition M (A : Type) : Type := world → result A * world.

#[export] Instance M_ret : MRet M := λ A a w, (Ok a, w).

#[export] Instance M_bind : MBind M := λ A B k m w,
  match m w with
  | (Ok a, w') => k a w'
  | (Raise e, w') => (Raise e, w')
  end.

Definition raise {A : Type} (e : exn) : M A := λ w, (Raise e, w).

(** [try: body except ...: handler]; [handler e = None] when no clause
    catches [e]. *)
Definition try_except {A : Type} (body : M A) (handler : exn → option (M A)) : M A :=
  λ w, match body w with
       | (Ok a, w') => (Ok a, w')
       | (Raise e, w') =>
           match handler e with
           | Some h => h w'
           | None => (Raise e, w')
           end
       end.

(** [for x in l: body]. *)
Fixpoint for_each {A : Type} (l : list A) (body : A → M unit) : M unit :=
  match l with
  | [] => mret tt
  | x :: l' => body x;; for_each l' body
  end.

Definition print (s : string) : M unit := λ w,
  (Ok tt, World (stdout w ++ [s]) (dirs w) (files w) (inventories w)).

(** [p.mkdir(exist_ok=True)]. *)
Definition mkdir_exist_ok (p : Py.Path) : M unit := λ w,
  (Ok tt, World (stdout w) ({[Py.path_str p]} ∪ dirs w) (files w) (inventories w)).

(** [with open(p, 'w') as file: file.write(text)]: the file is created or
    replaced. *)
Definition open_w_write (p : Py.Path) (text : string) : M unit := λ w,
  (Ok tt, World (stdout w) (dirs w) (<[Py.path_str p := text]> (files w)) (inventories w)).

(** [open(path, 'r')], up to what the parser will make of the text. *)
Definition open_r (path : string) : M yaml_file := λ w,
  match inventories w !! path with
  | None => (Raise FileNotFoundError, w)
  | Some f => (Ok f, w)
  end.

Definition yaml_safe_load (file : yaml_file) : M pyobj :=
  match file with
  | Malformed msg => raise (YAMLError msg)
  | Document doc => mret doc
  end.

(** [o.get(key, dflt)]: only a dict has the method. *)
Definition get_method (o : pyobj) (key : string) (dflt : pyobj) : M pyobj :=
  match o with
  | PyDict d => mret (default dflt (d !! key))
  | PyNone | PyList _ => raise AttributeError
  end.

(** [not o]. *)
Definition py_not (o : pyobj) : bool :=
  match o with
  | PyNone => true
  | PyList l => bool_decide (l = [])
  | PyDict d => bool_decide (d = ∅)
  end.

(** [len(o)]. *)
Definition len (o : pyobj) : M nat :=
  match o with
  | PyNone => raise TypeError
  | PyList l => mret (length l)
  | PyDict d => mret (size d)
  end.

(** [for device in o: body], for a body that starts with
    [device['name']]. A list yields its mappings. [None] is not iterable.
    A dict yields its keys, which are strings, and subscripting a string
    with ['name'] raises [TypeError] before the body does anything else. *)
Definition for_device_in (o : pyobj) (body : gmap string string → M unit) : M unit :=
  match o with
  | PyNone => raise TypeError
  | PyList l => for_each l body
  | PyDict d => if bool_decide (d = ∅) then mret tt else raise TypeError
  end.

(** [device[key]]. *)
Definition getitem (device : gmap string string) (key : string) : M string :=
  match device !! key with
  | Some v => mret v
  | None => raise (KeyError key)
  end.

(** ** The generator *)

(** The three commands of one VLAN, as the loop body appends them. *)
Definition vlan_entry (vlan_id : Z) : list string :=
  [ "vlan " +:+ Py.format_d vlan_id;
    " name VLAN_" +:+ Py.format_03d vlan_id;
    " exit" ].

(** [generate_vlan_configurations(device_name, vlans_range)], statement by
    statement: [configs] starts empty and every [append] extends it. *)
Definition generate_vlan_configurations
    (device_name : string) (vlans_range : Z * Z) : list string :=
  let '(start_vlan, end_vlan) := vlans_range in
  let configs := [] in
  let configs := Py.append configs ("! VLAN Configuration for " +:+ device_name) in
  let configs := Py.append configs "configure terminal" in
  let configs :=
    foldl (λ configs vlan_id,
             let configs := Py.append configs ("vlan " +:+ Py.format_d vlan_id) in
             let configs := Py.append configs (" name VLAN_" +:+ Py.format_03d vlan_id) in
             Py.append configs " exit")
          configs (Py.range start_vlan (end_vlan + 1)) in
  let configs := Py.append configs "end" in
  let configs := Py.append configs "write memory" in
  let configs := Py.append configs "" in
  configs.

(** The default of the [vlans_range] parameter. *)
Definition default_vlans_range : Z * Z := (5, 10).

(** A line that belongs to a VLAN entry. *)
Definition is_vlan_entry_line (line : string) : bool :=
  bool_decide (String.prefix "vlan" line = true)
  || bool_decide (String.prefix " name" line = true)
  || bool_decide (line = " exit").

(** ** The rest of the script *)

Definition ensure_output_directory : M Py.Path :=
  let output_dir := Py.parse_path "configs" in
  mkdir_exist_ok output_dir;;
  print ("✓ Output directory ensured: " +:+ Py.path_str output_dir);;
  mret output_dir.

Definition load_inventory (inventory_file : string) : M pyobj :=
  try_except
    (file ← open_r inventory_file;
     inventory ← yaml_safe_load file;
     get_method inventory "devices" (PyList []))
    (λ e, match e with
          | FileNotFoundError =>
              Some (print ("Error: Inventory file '" +:+ inventory_file +:+ "' not found");;
                    mret (PyList []))
          | YAMLError e =>
              Some (print ("Error parsing YAML file: " +:+ e);;
                    mret (PyList []))
          | _ => None
          end).

Definition save_configuration
    (device_name : string) (configurations : list string) (output_dir : Py.Path)
    : M Py.Path :=
  let filename := Py.truediv output_dir (device_name +:+ "_vlan_config.txt") in
  open_w_write filename (Py.join Py.NL configurations);;
  mret filename.

Definition print_configurations
    (device_name : string) (configurations : list string) : M unit :=
  print (Py.NL +:+ Py.repeat_char "=" 50);;
  print ("VLAN Configurations for: " +:+ device_name);;
  print (Py.repeat_char "=" 50);;
  for_each configurations print.

(** The body of the loop of [main]. *)
Definition process_device (output_dir : Py.Path) (device : gmap string string) : M unit :=
  device_name ← getitem device "name";
  let device_type := default "cisco_ios" (device !! "type") in
  print (Py.NL +:+ "Generating VLANs for: " +:+ device_name
           +:+ " (" +:+ device_type +:+ ")");;
  let configurations := generate_vlan_configurations device_name (5, 10) in
  print_configurations device_name configurations;;
  saved_file ← save_configuration device_name configurations output_dir;
  print ("Configuration saved to: " +:+ Py.path_str saved_file).

Definition main : M unit :=
  print "VLAN Configuration Generator";;
  print "Loading inventory...";;
  output_dir ← ensure_output_directory;
  devices ← load_inventory "inventory.yml";
  if py_not devices then
    print "No devices found in inventory. Exiting."
  else
    n ← len devices;
    print ("Found " +:+ pretty n +:+ " device(s) in inventory");;
    for_device_in devices (process_device output_dir);;
    print (Py.NL +:+ "VLAN configuration generation completed!");;
    print ("All files saved in: " +:+ Py.path_str output_dir).

(** ** Vocabulary of the statements below *)

(** Whether the character [c] occurs in [s]. *)
Fixpoint contains_char (c : ascii) (s : string) : bool :=
  match s with
  | "" => false
  | String x s' => bool_decide (x = c) || contains_char c s'
  end.

(** How many times the character [c] occurs in [s]. *)
Fixpoint count_char (c : ascii) (s : string) : nat :=
  match s with
  | "" => O
  | String x s' => ((if bool_decide (x = c) then 1 else 0) + count_char c s')%nat
  end.

(** The path [save_configuration] opens for a device, as text. *)
Definition artifact_path (device_name : string) : string :=
  Py.path_str (Py.truediv (Py.parse_path "configs") (device_name +:+ "_vlan_config.txt")).

(** The text [save_configuration] writes for a device in [main]. *)
Definition artifact_text (device_name : string) : string :=
  Py.join Py.NL (generate_vlan_configurations device_name (5, 10)).

(** The world [w] with [lines] printed after what it had. *)
Definition printed (w : world) (lines : list string) : world :=
  World (stdout w ++ lines) (dirs w) (files w) (inventories w).

(** The world [w] with the file [path] holding [text]. *)
Definition written (w : world) (path text : string) : world :=
  World (stdout w) (dirs w) (<[path := text]> (files w)) (inventories w).

(** What one pass of the loop prints for a named device. *)
Definition device_transcript (device_name device_type : string) : list string :=
  [Py.NL +:+ "Generating VLANs for: " +:+ device_name
     +:+ " (" +:+ device_type +:+ ")";
   Py.NL +:+ Py.repeat_char "=" 50;
   "VLAN Configurations for: " +:+ device_name;
   Py.repeat_char "=" 50]
  ++ generate_vlan_configurations device_name (5, 10)
  ++ ["Configuration saved to: " +:+ artifact_path device_name].

(** The value of the name field of a device that has one. *)
Definition name_of (device : gmap string string) : string :=
  default "" (device !! "name").

(** The declared type of a device, or the default. *)
Definition type_of (device : gmap string string) : string :=
  default "cisco_ios" (device !! "type").

(** The world once [main] has printed its banner and made the output
    directory. *)
Definition after_setup (w : world) : world :=
  World (stdout w ++ ["VLAN Configuration Generator"; "Loading inventory...";
                      "✓ Output directory ensured: configs"])
        ({["configs"]} ∪ dirs w) (files w) (inventories w).

(** The devices at the front of the list that have a name: the ones the
    loop of [main] gets through before [device['name']] fails. *)
Fixpoint named_prefix (devices : list (gmap string string)) : list (gmap string string) :=
  match devices with
  | [] => []
  | device :: rest =>
      match device !! "name" with
      | Some _ => device :: named_prefix rest
      | None => []
      end
  end.

(** The store after the files of [devices] have been written in order. *)
Definition save_all (fs : gmap string string) (devices : list (gmap string string))
    : gmap string string :=
  foldl (λ fs device,
           <[artifact_path (name_of device) := artifact_text (name_of device)]> fs)
        fs devices.

(** What the loop prints for [devices], in order. *)
Definition transcripts (devices : list (gmap string string)) : list string :=
  devices ≫= λ device, device_transcript (name_of device) (type_of device).

(** The devices whose files one run of [main] writes, read off the
    inventory. *)
Definition batch_of (w : world) : list (gmap string string) :=
  match inventories w !! "inventory.yml" with
  | Some (Document (PyDict d)) =>
      match d !! "devices" with
      | Some (PyList devices) => named_prefix devices
      | _ => []
      end
  | _ => []
  end.

(** How one run of [main] ends, read off the inventory. *)
Definition main_result (w : world) : result unit :=
  match inventories w !! "inventory.yml" with
  | Some (Document (PyDict d)) =>
      match d !! "devices" with
      | Some (PyList devices) =>
          if bool_decide (named_prefix devices = devices) then Ok tt
          else Raise (KeyError "name")
      | Some (PyDict d') => if bool_decide (d' = ∅) then Ok tt else Raise TypeError
      | Some PyNone | None => Ok tt
      end
  | Some (Document (PyList _)) | Some (Document PyNone) => Raise AttributeError
  | Some (Malformed _) | None => Ok tt
  end.

(** *** What the real store asks for

    [mkdir_exist_ok] and [open_w_write] always succeed, the real calls do
    not. The statements below that promise a written file carry the
    conditions under which [Path.mkdir] and [open] succeed. *)

(** Whether "{device_name}_vlan_config.txt" names one file directly under
    the output directory and [open] takes it: no "/" in the name, no NUL
    character, and at most 255 bytes with the 16 of the suffix. *)
Definition file_name_safe (device_name : string) : bool :=
  negb (contains_char "/" device_name)
  && negb (contains_char "000" device_name)
  && bool_decide (String.length device_name + 16 ≤ 255)%nat.

(** Whether [save_configuration] can write the file of [device_name] in
    [w]: the directory "configs" exists and the file to open is not itself
    a directory. *)
Definition can_save (w : world) (device_name : string) : Prop :=
  "configs" ∈ dirs w ∧ artifact_path device_name ∉ dirs w.

(** Whether [main] can make its directory and write the files of
    [devices] in [w]: "configs" is not a regular file, and no file to open
    is a directory. *)
Definition store_ready (w : world) (devices : list (gmap string string)) : Prop :=
  files w !! "configs" = None
  ∧ Forall (λ device, artifact_path (name_of device) ∉ dirs w) devices.

(** A device with a name that is safe as a file name. *)
Definition safely_named (device : gmap string string) : Prop :=
  ∃ n, device !! "name" = Some n ∧ file_name_safe n = true.

(** * Properties *)

(** ** Strings and decimal text *)

Section strings.

Lemma string_app_length (s1 s2 : string) :
  String.length (s1 +:+ s2) = (String.length s1 + String.length s2)%nat.
Proof. induction s1 as [|c s1 IH]; simpl; [done | by rewrite IH]. Qed.

Lemma string_app_nil (t : string) : "" +:+ t = t.
Proof. done. Qed.

Lemma string_app_cons (c : ascii) (s t : string) :
  String c s +:+ t = String c (s +:+ t).
Proof. done. Qed.

Lemma repeat_char_length (c : ascii) (n : nat) :
  String.length (Py.repeat_char c n) = n.
Proof. induction n as [|n IH]; simpl; [done | by rewrite IH]. Qed.

(** Printing digits in front of [s] never shortens it. *)
Lemma pretty_N_go_grows (x : N) :
  ∀ s, (String.length s ≤ String.length (pretty_N_go x s))%nat.
Proof.
  induction x as [x IH] using (well_founded_induction N.lt_wf_0); intros s.
  destruct (decide (x = 0%N)) as [->|Hx].
  - by rewrite pretty_N_go_0.
  - rewrite pretty_N_go_step by lia.
    etrans; [| apply IH; apply N.div_lt; lia]. simpl. lia.
Qed.

(** A number below ten prints as one character. *)
Lemma pretty_N_go_digit (x : N) (s : string) :
  (0 < x < 10)%N → pretty_N_go x s = String (pretty_N_char (x `mod` 10)) s.
Proof.
  intros Hx. rewrite pretty_N_go_step by lia.
  rewrite (N.div_small x 10) by lia. apply pretty_N_go_0.
Qed.

Lemma pretty_N_length_small (x : N) :
  (x < 1000)%N → (String.length (pretty x) ≤ 3)%nat.
Proof.
  intros Hx. unfold pretty, pretty_N. case_decide as H0; [simpl; lia |].
  destruct (decide (x < 10)%N).
  { rewrite pretty_N_go_digit by lia. simpl. lia. }
  rewrite pretty_N_go_step by lia.
  assert (0 < x `div` 10 < 100)%N as Hd.
  { split; [apply N.div_str_pos; lia | apply N.Div0.div_lt_upper_bound; lia]. }
  destruct (decide (x `div` 10 < 10)%N).
  { rewrite pretty_N_go_digit by lia. simpl. lia. }
  rewrite pretty_N_go_step by lia.
  rewrite pretty_N_go_digit; [simpl; lia |].
  split; [apply N.div_str_pos; lia | apply N.Div0.div_lt_upper_bound; lia].
Qed.

Lemma pretty_N_length_large (x : N) :
  (1000 ≤ x)%N → (4 ≤ String.length (pretty x))%nat.
Proof.
  intros Hx. unfold pretty, pretty_N. case_decide as H0; [lia |].
  assert (100 ≤ x `div` 10)%N by (apply N.div_le_lower_bound; lia).
  assert (10 ≤ (x `div` 10) `div` 10)%N by (apply N.div_le_lower_bound; lia).
  assert (1 ≤ ((x `div` 10) `div` 10) `div` 10)%N
    by (apply N.div_le_lower_bound; lia).
  do 4 (rewrite pretty_N_go_step by lia).
  etrans; [| apply pretty_N_go_grows]. simpl. lia.
Qed.

Lemma pretty_Z_nonneg (v : Z) : 0 ≤ v → pretty v = pretty (Z.to_N v).
Proof. intros Hv. destruct v as [|p|p]; [done | done | lia]. Qed.

Lemma format_03d_nonneg (v : Z) :
  0 ≤ v →
  Py.format_03d v = Py.repeat_char "0" (3 - String.length (pretty v)) +:+ pretty v.
Proof.
  intros Hv. unfold Py.format_03d.
  rewrite bool_decide_eq_false_2 by lia. by rewrite Z.abs_eq.
Qed.

(** The padding spelled out: below 1000 zeros come first and the text has
    three characters; from 1000 on it is the plain decimal text. *)
Lemma format_03d_padding (v : Z) :
  (0 ≤ v < 1000 →
     Py.format_03d v
     = Py.repeat_char "0" (3 - String.length (pretty v)) +:+ pretty v
     ∧ String.length (Py.format_03d v) = 3%nat)
  ∧ (1000 ≤ v → Py.format_03d v = pretty v).
Proof.
  split.
  - intros [H0 Hlt]. rewrite format_03d_nonneg by done. split; [done |].
    rewrite string_app_length, repeat_char_length.
    pose proof (pretty_N_length_small (Z.to_N v)) as Hs.
    rewrite pretty_Z_nonneg by done. lia.
  - intros Hge. rewrite format_03d_nonneg by lia.
    pose proof (pretty_N_length_large (Z.to_N v)) as Hl.
    rewrite pretty_Z_nonneg in * by lia.
    replace (3 - String.length (pretty (Z.to_N v)))%nat with 0%nat by lia.
    done.
Qed.

Lemma file_name_safe_no_slash (device_name : string) :
  file_name_safe device_name = true → contains_char "/" device_name = false.
Proof.
  unfold file_name_safe. intros [[H _]%andb_true_iff _]%andb_true_iff.
  by apply negb_true_iff in H.
Qed.

End strings.

(** ** The shape of the generated text *)

Section generator.

Lemma foldl_vlan_entries (ids : list Z) :
  ∀ configs : list string,
    foldl (λ configs vlan_id,
             let configs := Py.append configs ("vlan " +:+ Py.format_d vlan_id) in
             let configs := Py.append configs (" name VLAN_" +:+ Py.format_03d vlan_id) in
             Py.append configs " exit") configs ids
    = configs ++ (ids ≫= vlan_entry).
Proof.
  induction ids as [|v ids IH]; intros configs; simpl.
  - by rewrite app_nil_r.
  - rewrite IH. unfold Py.append. by rewrite <- !app_assoc.
Qed.

(** The returned list: two header lines, the entries of the ids of the
    range in order, three footer lines. *)
Lemma generate_layout (device_name : string) (start_vlan end_vlan : Z) :
  generate_vlan_configurations device_name (start_vlan, end_vlan)
  = ["! VLAN Configuration for " +:+ device_name; "configure terminal"]
    ++ (Py.range start_vlan (end_vlan + 1) ≫= vlan_entry)
    ++ ["end"; "write memory"; ""].
Proof.
  unfold generate_vlan_configurations. rewrite foldl_vlan_entries.
  unfold Py.append. simpl. by rewrite <- !app_assoc.
Qed.

Lemma vlan_entries_length (ids : list Z) :
  length (ids ≫= vlan_entry) = (3 * length ids)%nat.
Proof.
  induction ids as [|v ids IH]; [done |].
  rewrite bind_cons, length_app, IH. simpl. lia.
Qed.

Lemma vlan_entries_lookup (ids : list Z) :
  ∀ (i : nat) (v : Z) (j : nat),
    ids !! i = Some v → (j < 3)%nat →
    (ids ≫= vlan_entry) !! (3 * i + j)%nat = vlan_entry v !! j.
Proof.
  induction ids as [|u ids IH]; intros i v j Hi Hj; [done |].
  destruct i as [|i]; simpl in Hi.
  - injection Hi as ->. rewrite bind_cons.
    replace (3 * 0 + j)%nat with j by lia.
    rewrite lookup_app_l; [done |]. simpl; lia.
  - rewrite bind_cons.
    rewrite lookup_app_r by (simpl; lia).
    replace (3 * S i + j - length (vlan_entry u))%nat with (3 * i + j)%nat
      by (simpl; lia).
    by apply IH.
Qed.

Lemma range_length (start stop : Z) :
  Z.of_nat (length (Py.range start stop)) = Z.max 0 (stop - start).
Proof. unfold Py.range. rewrite length_seqZ. lia. Qed.

Lemma generate_length (device_name : string) (start_vlan end_vlan : Z) :
  Z.of_nat (length (generate_vlan_configurations device_name (start_vlan, end_vlan)))
  = 5 + 3 * Z.max 0 (end_vlan - start_vlan + 1).
Proof.
  rewrite generate_layout, !length_app, vlan_entries_length. simpl.
  pose proof (range_length start_vlan (end_vlan + 1)). lia.
Qed.

(** The three lines of id [v] sit at offset [2 + 3 * (v - start_vlan)]. *)
Lemma generate_lookup_entry
    (device_name : string) (start_vlan end_vlan v : Z) (j : nat) :
  start_vlan ≤ v ≤ end_vlan → (j < 3)%nat →
  generate_vlan_configurations device_name (start_vlan, end_vlan)
    !! (2 + 3 * Z.to_nat (v - start_vlan) + j)%nat
  = vlan_entry v !! j.
Proof.
  intros Hv Hj. rewrite generate_layout.
  rewrite lookup_app_r by (simpl; lia).
  replace (2 + 3 * Z.to_nat (v - start_vlan) + j - length _)%nat
    with (3 * Z.to_nat (v - start_vlan) + j)%nat by (simpl; lia).
  assert (Py.range start_vlan (end_vlan + 1) !! Z.to_nat (v - start_vlan) = Some v)
    as Hlk.
  { unfold Py.range. apply lookup_seqZ. lia. }
  rewrite lookup_app_l.
  - by apply vlan_entries_lookup.
  - rewrite vlan_entries_length. apply lookup_lt_Some in Hlk. lia.
Qed.

End generator.

(** ** Claims about the generator *)

(** C1, as the code has it: the returned list has [5 + 3*(end-start+1)]
    elements when [start <= end] and 5 otherwise (two header lines, three
    per id, three footer lines of which the last is the empty string); for
    the range (5, 10) that is 23. *)
Theorem generate_line_count (device_name : string) (start_vlan end_vlan : Z) :
  Z.of_nat (length (generate_vlan_configurations device_name (start_vlan, end_vlan)))
  = (if bool_decide (start_vlan ≤ end_vlan)
     then 5 + 3 * (end_vlan - start_vlan + 1) else 5)
  ∧ length (generate_vlan_configurations device_name (5, 10)) = 23%nat.
Proof.
  split.
  - rewrite generate_length. case_bool_decide; lia.
  - apply Nat2Z.inj. rewrite generate_length. lia.
Qed.

(** C1 as stated fails: for the range (5, 10) the list does not have
    [4 + 3*(10-5+1) = 22] elements, and for a reversed range it does not
    have 4. *)
Lemma generate_line_count_not_4_based :
  Z.of_nat (length (generate_vlan_configurations "core_switch_01" (5, 10)))
    ≠ 4 + 3 * (10 - 5 + 1)
  ∧ length (generate_vlan_configurations "core_switch_01" (5, 10)) ≠ 22%nat
  ∧ length (generate_vlan_configurations "core_switch_01" (10, 5)) ≠ 4%nat.
Proof. vm_compute. repeat split; discriminate. Qed.

(** Where the count of 22 comes from: the 23 elements are joined by 22
    newlines, the last of which ends the "write memory" line. *)
Example saved_text_has_22_newlines :
  count_char "010" (artifact_text "core_switch_01") = 22%nat.
Proof. reflexivity. Qed.

(** C2: for [start <= end] the list is the header comment, then
    "configure terminal", then for each id from [start] to [end] in
    ascending order its three lines, then exactly "end", "write memory"
    and the empty string. The number in the name line is the id in decimal
    with zeros in front up to three characters: exactly three characters
    below 1000, the plain decimal text from 1000 on. *)
Theorem generate_structure (device_name : string) (start_vlan end_vlan : Z) :
  start_vlan ≤ end_vlan →
  let out := generate_vlan_configurations device_name (start_vlan, end_vlan) in
  out !! 0%nat = Some ("! VLAN Configuration for " +:+ device_name)
  ∧ out !! 1%nat = Some "configure terminal"
  ∧ (∀ v : Z, start_vlan ≤ v ≤ end_vlan →
       let i := (2 + 3 * Z.to_nat (v - start_vlan))%nat in
       out !! i = Some ("vlan " +:+ pretty v)
       ∧ out !! (i + 1)%nat = Some (" name VLAN_" +:+ Py.format_03d v)
       ∧ out !! (i + 2)%nat = Some " exit"
       ∧ (0 ≤ v < 1000 →
            out !! (i + 1)%nat
            = Some (" name VLAN_"
                      +:+ Py.repeat_char "0" (3 - String.length (pretty v))
                      +:+ pretty v)
            ∧ String.length (Py.format_03d v) = 3%nat)
       ∧ (1000 ≤ v → out !! (i + 1)%nat = Some (" name VLAN_" +:+ pretty v)))
  ∧ drop (2 + 3 * Z.to_nat (end_vlan - start_vlan + 1)) out
    = ["end"; "write memory"; ""].
Proof.
  intros Hle out. subst out. split; [| split; [| split]].
  - by rewrite generate_layout.
  - by rewrite generate_layout.
  - intros v Hv i. subst i.
    destruct (format_03d_padding v) as [Hsmall Hlarge].
    rewrite <- (Nat.add_0_r (2 + _)) at 1.
    rewrite !generate_lookup_entry by (done || lia).
    split; [done |]. split; [done |]. split; [done |]. split.
    + intros Hv3. destruct (Hsmall Hv3) as [Heq Hlen].
      split; [| done]. simpl. by rewrite <- Heq.
    + intros Hv4. simpl. by rewrite (Hlarge Hv4).
  - rewrite generate_layout.
    rewrite (drop_app_add' [_; _]) by done.
    apply drop_app_length'. rewrite vlan_entries_length.
    pose proof (range_length start_vlan (end_vlan + 1)). lia.
Qed.

Lemma generate_structure_witness :
  5 ≤ 10
  ∧ drop 20 (generate_vlan_configurations "core_switch_01" (5, 10))
    = ["end"; "write memory"; ""].
Proof.
  split; [lia |].
  apply (generate_structure "core_switch_01" 5 10). lia.
Defined.

(** C3: for [start > end] the call returns the two header lines and the
    three footer lines and nothing else; no line of a VLAN entry is in
    it. *)
Theorem generate_reversed_range (device_name : string) (start_vlan end_vlan : Z) :
  end_vlan < start_vlan →
  generate_vlan_configurations device_name (start_vlan, end_vlan)
  = ["! VLAN Configuration for " +:+ device_name; "configure terminal";
     "end"; "write memory"; ""]
  ∧ Forall (λ line, is_vlan_entry_line line = false)
      (generate_vlan_configurations device_name (start_vlan, end_vlan)).
Proof.
  intros Hlt.
  assert (generate_vlan_configurations device_name (start_vlan, end_vlan)
          = ["! VLAN Configuration for " +:+ device_name; "configure terminal";
             "end"; "write memory"; ""]) as ->.
  { rewrite generate_layout. unfold Py.range. by rewrite seqZ_nil by lia. }
  split; [done |].
  repeat constructor.
Qed.

Lemma generate_reversed_range_witness :
  5 < 10
  ∧ generate_vlan_configurations "core_switch_01" (10, 5)
    = ["! VLAN Configuration for core_switch_01"; "configure terminal";
       "end"; "write memory"; ""].
Proof.
  split; [lia |].
  apply (generate_reversed_range "core_switch_01" 10 5). lia.
Defined.

(** C4: the name line of every emitted id [v] is " name VLAN_" followed by
    [v] in decimal, preceded by zeros up to three characters and never
    shorter than that; an id of 1000 or more is printed in full; 7 gives
    " name VLAN_007" and 1000 gives " name VLAN_1000". *)
Theorem name_line_zero_padded (device_name : string) (start_vlan end_vlan v : Z) :
  start_vlan ≤ v ≤ end_vlan →
  generate_vlan_configurations device_name (start_vlan, end_vlan)
    !! (3 + 3 * Z.to_nat (v - start_vlan))%nat
  = Some (" name VLAN_" +:+ Py.format_03d v)
  ∧ (3 ≤ String.length (Py.format_03d v))%nat
  ∧ (0 ≤ v < 1000 →
       Py.format_03d v
       = Py.repeat_char "0" (3 - String.length (pretty v)) +:+ pretty v
       ∧ String.length (Py.format_03d v) = 3%nat)
  ∧ (1000 ≤ v → Py.format_03d v = pretty v)
  ∧ " name VLAN_" +:+ Py.format_03d 7 = " name VLAN_007"
  ∧ " name VLAN_" +:+ Py.format_03d 1000 = " name VLAN_1000".
Proof.
  intros Hv. split; [| split; [| split; [| split; [| split]]]].
  - pose proof (generate_lookup_entry device_name start_vlan end_vlan v 1 Hv) as H.
    replace (3 + 3 * Z.to_nat (v - start_vlan))%nat
      with (2 + 3 * Z.to_nat (v - start_vlan) + 1)%nat by lia.
    rewrite H by lia. done.
  - unfold Py.format_03d.
    rewrite !string_app_length, repeat_char_length. lia.
  - intros [H0 Hlt]. rewrite format_03d_nonneg by done. split; [done |].
    rewrite string_app_length, repeat_char_length.
    pose proof (pretty_N_length_small (Z.to_N v)) as Hs.
    rewrite pretty_Z_nonneg by done. lia.
  - intros Hge. rewrite format_03d_nonneg by lia.
    pose proof (pretty_N_length_large (Z.to_N v)) as Hl.
    rewrite pretty_Z_nonneg in * by lia.
    replace (3 - String.length (pretty (Z.to_N v)))%nat with 0%nat by lia.
    done.
  - reflexivity.
  - reflexivity.
Qed.

Lemma name_line_zero_padded_witness :
  5 ≤ 7 ≤ 10
  ∧ generate_vlan_configurations "core_switch_01" (5, 10) !! 9%nat
    = Some " name VLAN_007".
Proof.
  split; [lia |].
  apply (name_line_zero_padded "core_switch_01" 5 10 7). lia.
Defined.

(** ** Running the effectful code *)

Section effects.

Lemma printed_nil (w : world) : printed w [] = w.
Proof. destruct w. unfold printed. simpl. by rewrite app_nil_r. Qed.

Lemma printed_printed (w : world) (l1 l2 : list string) :
  printed (printed w l1) l2 = printed w (l1 ++ l2).
Proof. unfold printed. simpl. by rewrite app_assoc. Qed.

Lemma print_run (s : string) (w : world) : print s w = (Ok tt, printed w [s]).
Proof. done. Qed.

Lemma for_each_print (lines : list string) :
  ∀ w, for_each lines print w = (Ok tt, printed w lines).
Proof.
  induction lines as [|x lines IH]; intros w; simpl.
  - by rewrite printed_nil.
  - unfold mbind, M_bind. rewrite print_run, IH, printed_printed. done.
Qed.

Lemma print_configurations_run
    (device_name : string) (configurations : list string) (w : world) :
  print_configurations device_name configurations w
  = (Ok tt, printed w ([Py.NL +:+ Py.repeat_char "=" 50;
                        "VLAN Configurations for: " +:+ device_name;
                        Py.repeat_char "=" 50] ++ configurations)).
Proof.
  unfold print_configurations, mbind, M_bind.
  rewrite !print_run, for_each_print, !printed_printed. done.
Qed.

Lemma save_configuration_run
    (device_name : string) (configurations : list string)
    (output_dir : Py.Path) (w : world) :
  save_configuration device_name configurations output_dir w
  = (Ok (Py.truediv output_dir (device_name +:+ "_vlan_config.txt")),
     written w
       (Py.path_str (Py.truediv output_dir (device_name +:+ "_vlan_config.txt")))
       (Py.join Py.NL configurations)).
Proof. done. Qed.

Lemma process_device_run (device : gmap string string) (device_name : string) (w : world) :
  device !! "name" = Some device_name →
  process_device (Py.parse_path "configs") device w
  = (Ok tt,
     printed (written w (artifact_path device_name) (artifact_text device_name))
       (device_transcript device_name (default "cisco_ios" (device !! "type")))).
Proof.
  intros Hname. unfold process_device, getitem. rewrite Hname.
  unfold mbind at 1, M_bind at 1, mret at 1, M_ret at 1.
  unfold mbind at 1, M_bind at 1. rewrite print_run.
  unfold mbind at 1, M_bind at 1. rewrite print_configurations_run.
  unfold mbind at 1, M_bind at 1. rewrite save_configuration_run.
  rewrite print_run.
  unfold printed, written, device_transcript, artifact_path, artifact_text. simpl.
  do 2 f_equal. rewrite <- !app_assoc. done.
Qed.

Lemma process_device_nameless (output_dir : Py.Path) (device : gmap string string) (w : world) :
  device !! "name" = None →
  process_device output_dir device w = (Raise (KeyError "name"), w).
Proof. intros Hname. unfold process_device, getitem. by rewrite Hname. Qed.

End effects.

(** ** Paths of the output files *)

Section paths.

Lemma contains_char_app (c : ascii) (s1 s2 : string) :
  contains_char c (s1 +:+ s2) = contains_char c s1 || contains_char c s2.
Proof.
  induction s1 as [|x s1 IH]; simpl; [done |].
  rewrite IH. by rewrite orb_assoc.
Qed.

Lemma split_no_separator (sep : ascii) (s : string) :
  contains_char sep s = false → Py.split sep s = [s].
Proof.
  induction s as [|x s IH]; simpl; [done |].
  intros [Hx Hs]%orb_false_iff. rewrite Hx, (IH Hs). done.
Qed.

Lemma starts_with_no_char (c : ascii) (s : string) :
  contains_char c s = false → Py.starts_with c s = false.
Proof. destruct s as [|x s]; simpl; [done |]. by intros [Hx _]%orb_false_iff. Qed.

(** A text without "/" that is neither empty nor "." is one component. *)
Lemma parse_path_component (s : string) :
  contains_char "/" s = false → s ≠ "" → s ≠ "." →
  Py.parse_path s = {| Py.root := ""; Py.parts := [s] |}.
Proof.
  intros Hs Hne Hdot. unfold Py.parse_path, Py.splitroot.
  rewrite (starts_with_no_char _ _ Hs). simpl.
  rewrite (split_no_separator _ _ Hs). simpl.
  unfold Py.is_component.
  rewrite !bool_decide_eq_false_2 by done. done.
Qed.

Lemma file_name_is_component (device_name : string) :
  contains_char "/" device_name = false →
  Py.parse_path (device_name +:+ "_vlan_config.txt")
  = {| Py.root := ""; Py.parts := [device_name +:+ "_vlan_config.txt"] |}.
Proof.
  intros Hn. apply parse_path_component.
  - rewrite contains_char_app, Hn. done.
  - intros H%(f_equal String.length). rewrite string_app_length in H.
    simpl in H. lia.
  - intros H%(f_equal String.length). rewrite string_app_length in H.
    simpl in H. lia.
Qed.

Lemma truediv_plain_name (device_name : string) :
  contains_char "/" device_name = false →
  Py.truediv (Py.parse_path "configs") (device_name +:+ "_vlan_config.txt")
  = {| Py.root := ""; Py.parts := ["configs"; device_name +:+ "_vlan_config.txt"] |}.
Proof.
  intros Hn. unfold Py.truediv. by rewrite (file_name_is_component _ Hn).
Qed.

(** For a name without "/" the file is the name plus the fixed suffix,
    directly under "configs". *)
Lemma artifact_path_plain_name (device_name : string) :
  contains_char "/" device_name = false →
  artifact_path device_name = "configs/" +:+ device_name +:+ "_vlan_config.txt".
Proof.
  intros Hn. unfold artifact_path. by rewrite (truediv_plain_name _ Hn).
Qed.

Lemma string_app_empty_l (s t : string) : s +:+ t = t → s = "".
Proof.
  intros H%(f_equal String.length). rewrite string_app_length in H.
  destruct s; [done | simpl in H; lia].
Qed.

Lemma string_app_cancel_r (s1 s2 t : string) :
  s1 +:+ t = s2 +:+ t → s1 = s2.
Proof.
  revert s2. induction s1 as [|c s1 IH]; intros s2 H.
  - symmetry. by apply (string_app_empty_l s2 t).
  - destruct s2 as [|c2 s2].
    + by apply (string_app_empty_l (String c s1) t).
    + simpl in H. injection H as -> H. f_equal. by apply IH.
Qed.

Lemma artifact_path_plain_inj (n1 n2 : string) :
  contains_char "/" n1 = false → contains_char "/" n2 = false →
  artifact_path n1 = artifact_path n2 → n1 = n2.
Proof.
  intros H1 H2. rewrite !artifact_path_plain_name by done.
  intros H. simpl in H. simplify_eq.
  by apply (string_app_cancel_r _ _ "_vlan_config.txt").
Qed.

(** [join] puts one separator between neighbours and none at the end. *)
Lemma join_length (sep : string) (lines : list string) :
  String.length (Py.join sep lines)
  = (sum_list (String.length <$> lines) + (length lines - 1) * String.length sep)%nat.
Proof.
  induction lines as [|x [|y lines] IH]; [done | simpl; lia |].
  change (Py.join sep (x :: y :: lines)) with (x +:+ sep +:+ Py.join sep (y :: lines)).
  rewrite !string_app_length, IH. simpl. lia.
Qed.

End paths.

(** ** The inventory loader *)

Section loader.

Lemma load_inventory_missing (path : string) (w : world) :
  inventories w !! path = None →
  load_inventory path w
  = (Ok (PyList []),
     printed w ["Error: Inventory file '" +:+ path +:+ "' not found"]).
Proof.
  intros H. unfold load_inventory, try_except, mbind, M_bind, open_r.
  rewrite H. done.
Qed.

Lemma load_inventory_malformed (path msg : string) (w : world) :
  inventories w !! path = Some (Malformed msg) →
  load_inventory path w
  = (Ok (PyList []), printed w ["Error parsing YAML file: " +:+ msg]).
Proof.
  intros H. unfold load_inventory, try_except, mbind, M_bind, open_r.
  rewrite H. done.
Qed.

(** A mapping gives the value under "devices", or the empty list when
    the key is absent. *)
Lemma load_inventory_mapping (path : string) (d : gmap string pyobj) (w : world) :
  inventories w !! path = Some (Document (PyDict d)) →
  load_inventory path w = (Ok (default (PyList []) (d !! "devices")), w).
Proof.
  intros H. unfold load_inventory, try_except, mbind, M_bind, open_r.
  rewrite H. done.
Qed.

(** A document that is not a mapping has no [get]: the error is caught by
    neither clause. *)
Lemma load_inventory_not_a_mapping (path : string) (doc : pyobj) (w : world) :
  inventories w !! path = Some (Document doc) →
  (∀ d, doc ≠ PyDict d) →
  load_inventory path w = (Raise AttributeError, w).
Proof.
  intros H Hdoc. unfold load_inventory, try_except, mbind, M_bind, open_r.
  rewrite H. destruct doc as [| l | d]; [done | done |]. by destruct (Hdoc d).
Qed.

Lemma printed_inj (w : world) (l1 l2 : list string) :
  printed w l1 = printed w l2 → l1 = l2.
Proof.
  intros H%(f_equal stdout). simpl in H. by apply app_inv_head in H.
Qed.

(** The loader reads [inventories] only and only adds to [stdout]: run
    from a world with the same inventory files it returns the same value
    and prints the same notices. *)
Lemma load_inventory_frame
    (path : string) (w w2 : world) (r : result pyobj) (notices : list string) :
  inventories w2 = inventories w →
  load_inventory path w = (r, printed w notices) →
  load_inventory path w2 = (r, printed w2 notices).
Proof.
  intros Hinv Hrun.
  assert (∀ r0 l, load_inventory path w = (r0, printed w l) →
                  load_inventory path w2 = (r0, printed w2 l) →
                  load_inventory path w2 = (r, printed w2 notices)) as Hdone.
  { intros r0 l H1 H2. rewrite H1 in Hrun.
    apply pair_equal_spec in Hrun as [<- Hw].
    by rewrite <- (printed_inj _ _ _ Hw). }
  destruct (inventories w !! path) as [[msg | doc] |] eqn:Hlk.
  - eapply Hdone; apply load_inventory_malformed; [done | by rewrite Hinv].
  - destruct doc as [| l | d].
    + apply (Hdone (Raise AttributeError) []); rewrite printed_nil;
        apply (load_inventory_not_a_mapping _ PyNone); done || by rewrite Hinv.
    + apply (Hdone (Raise AttributeError) []); rewrite printed_nil;
        apply (load_inventory_not_a_mapping _ (PyList l)); done || by rewrite Hinv.
    + apply (Hdone (Ok (default (PyList []) (d !! "devices"))) []);
        rewrite printed_nil; apply load_inventory_mapping; done || by rewrite Hinv.
  - eapply Hdone; apply load_inventory_missing; [done | by rewrite Hinv].
Qed.

End loader.

(** ** The batch loop *)

Section batch.

(** [main], up to the point where the inventory is loaded: the banner and
    the output directory come first, whatever the inventory holds. *)
Lemma main_unfold (w : world) :
  main w
  = match load_inventory "inventory.yml" (after_setup w) with
    | (Ok devices, w') =>
        (if py_not devices then
           print "No devices found in inventory. Exiting."
         else
           n ← len devices;
           print ("Found " +:+ pretty n +:+ " device(s) in inventory");;
           for_device_in devices (process_device (Py.parse_path "configs"));;
           print (Py.NL +:+ "VLAN configuration generation completed!");;
           print ("All files saved in: " +:+ "configs")) w'
    | (Raise e, w') => (Raise e, w')
    end.
Proof.
  unfold main, ensure_output_directory.
  unfold mbind at 1 2 3 4 5, M_bind at 1 2 3 4 5, mret at 1, M_ret at 1.
  unfold print at 1 2 3, mkdir_exist_ok. simpl.
  unfold after_setup. rewrite <- !app_assoc. simpl.
  destruct (load_inventory _ _) as [[devices | e] w']; done.
Qed.

Lemma for_each_process_device (devices : list (gmap string string)) :
  ∀ w : world,
    Forall (λ device, is_Some (device !! "name")) devices →
    for_each devices (process_device (Py.parse_path "configs")) w
    = (Ok tt,
       World (stdout w
              ++ (devices ≫= λ device,
                    device_transcript (name_of device) (type_of device)))
             (dirs w)
             (foldl (λ fs device,
                       <[artifact_path (name_of device)
                           := artifact_text (name_of device)]> fs)
                    (files w) devices)
             (inventories w)).
Proof.
  induction devices as [|device devices IH]; intros w Hnames.
  - simpl. rewrite app_nil_r. by destruct w.
  - apply Forall_cons in Hnames as [[n Hn] Hnames].
    simpl. unfold mbind at 1, M_bind at 1.
    rewrite (process_device_run _ n) by done.
    rewrite IH by done. unfold printed, written, name_of, type_of. simpl.
    rewrite Hn. simpl. by rewrite <- app_assoc.
Qed.

End batch.

(** ** Claims about the loader, the sink and the batch loop *)

(** C5, on an inventory file that exists and is empty: the parsed document
    is [None], which lacks a "devices" key, yet the loader does not return
    an empty sequence; [AttributeError] leaves [load_inventory] uncaught
    and ends [main]. *)
Theorem load_inventory_empty_document_raises :
  let w := World [] ∅ ∅ {["inventory.yml" := Document PyNone]} in
  load_inventory "inventory.yml" w = (Raise AttributeError, w)
  ∧ main w = (Raise AttributeError, after_setup w).
Proof.
  intros w.
  assert (∀ w0, inventories w0 = inventories w →
                load_inventory "inventory.yml" w0 = (Raise AttributeError, w0)) as H.
  { intros w0 Hw0. apply (load_inventory_not_a_mapping _ PyNone); [| done].
    by rewrite Hw0. }
  split; [by apply H |].
  rewrite main_unfold, H; done.
Qed.

(** C6: when the loader returns an empty device sequence (or any other
    value that counts as false), and "configs" is not a regular file, so
    that the directory can be made, [main] returns normally having printed
    its banner, the loader's notices and the "no devices" line, and
    nothing else: no configuration is generated or printed and no file is
    written. *)
Theorem main_no_devices (w : world) (devices : pyobj) (notices : list string) :
  files w !! "configs" = None →
  load_inventory "inventory.yml" w = (Ok devices, printed w notices) →
  py_not devices = true →
  main w
  = (Ok tt,
     World (stdout w
            ++ ["VLAN Configuration Generator"; "Loading inventory...";
                "✓ Output directory ensured: configs"]
            ++ notices
            ++ ["No devices found in inventory. Exiting."])
           ({["configs"]} ∪ dirs w) (files w) (inventories w)).
Proof.
  intros _ Hload Hempty. rewrite main_unfold.
  rewrite (load_inventory_frame _ w (after_setup w) _ notices eq_refl Hload).
  rewrite Hempty, print_run. unfold printed, after_setup. simpl.
  by rewrite <- !app_assoc.
Qed.

Lemma main_no_devices_witness :
  let w := World [] ∅ ∅ ∅ in
  let notices := ["Error: Inventory file 'inventory.yml' not found"] in
  files w !! "configs" = None
  ∧ load_inventory "inventory.yml" w = (Ok (PyList []), printed w notices)
  ∧ py_not (PyList []) = true
  ∧ files (main w).2 = ∅.
Proof.
  intros w notices.
  assert (files w !! "configs" = None) as Hdir by reflexivity.
  assert (load_inventory "inventory.yml" w = (Ok (PyList []), printed w notices))
    as Hload by reflexivity.
  split; [exact Hdir |]. split; [exact Hload |]. split; [reflexivity |].
  by rewrite (main_no_devices w (PyList []) notices Hdir Hload eq_refl).
Defined.

(** C7, on a device named "/tmp/sw1" when the directory "/tmp" exists:
    [main] returns normally and announces "All files saved in: configs",
    yet the one file it wrote is "/tmp/sw1_vlan_config.txt", outside the
    output directory: the name goes into the path unsanitised, and an
    absolute right-hand side of [/] replaces the directory. In the same
    way the different names "a" and "./a" share one file. *)
Theorem unsanitised_name_leaves_output_directory :
  let device : gmap string string := {["name" := "/tmp/sw1"]} in
  let d : gmap string pyobj := {["devices" := PyList [device]]} in
  let w := World [] {["/tmp"]} ∅ {["inventory.yml" := Document (PyDict d)]} in
  (main w).1 = Ok tt
  ∧ files (main w).2 = {["/tmp/sw1_vlan_config.txt" := artifact_text "/tmp/sw1"]}
  ∧ last (stdout (main w).2) = Some "All files saved in: configs"
  ∧ (save_configuration "/tmp/sw1" ["end"] (Py.parse_path "configs")
       (World [] {["configs"; "/tmp"]} ∅ ∅)).1
    = Ok {| Py.root := "/"; Py.parts := ["tmp"; "sw1_vlan_config.txt"] |}
  ∧ String.prefix "configs" (artifact_path "/tmp/sw1") = false
  ∧ "a" ≠ "./a"
  ∧ artifact_path "a" = artifact_path "./a".
Proof. repeat split; done. Qed.

(** C8: two device records that differ only in their "type" field make
    the loop body end the same way and leave the same files; when they
    have a name that is safe as a file name and the store can take the
    file, both write the text generated from the name alone, and the type
    shows up in the printed transcript only. *)
Theorem device_type_not_in_output (d1 d2 : gmap string string) (w : world) :
  delete "type" d1 = delete "type" d2 →
  let run1 := process_device (Py.parse_path "configs") d1 w in
  let run2 := process_device (Py.parse_path "configs") d2 w in
  run1.1 = run2.1
  ∧ files run1.2 = files run2.2
  ∧ dirs run1.2 = dirs run2.2
  ∧ (∀ device_name : string,
       d1 !! "name" = Some device_name →
       file_name_safe device_name = true →
       can_save w device_name →
       let saved := written w ("configs/" +:+ device_name +:+ "_vlan_config.txt")
                      (Py.join Py.NL (generate_vlan_configurations device_name (5, 10))) in
       run1 = (Ok tt, printed saved (device_transcript device_name (type_of d1)))
       ∧ run2 = (Ok tt, printed saved (device_transcript device_name (type_of d2)))).
Proof.
  intros Hsame run1 run2.
  assert (d1 !! "name" = d2 !! "name") as Hname.
  { rewrite <- (lookup_delete_ne d1 "type" "name") by done.
    rewrite <- (lookup_delete_ne d2 "type" "name") by done.
    by rewrite Hsame. }
  subst run1 run2.
  destruct (d1 !! "name") as [n |] eqn:H1.
  - rewrite (process_device_run d1 n) by done.
    rewrite (process_device_run d2 n) by done.
    split; [done |]. split; [done |]. split; [done |].
    intros device_name [= <-] Hsafe _.
    rewrite <- (artifact_path_plain_name n) by (by apply file_name_safe_no_slash).
    done.
  - rewrite !process_device_nameless by done. repeat split; done.
Qed.

Lemma device_type_not_in_output_witness :
  let d1 : gmap string string := {["name" := "sw1"; "type" := "cisco_ios"]} in
  let d2 : gmap string string := {["name" := "sw1"; "type" := "arista_eos"]} in
  let w := World [] {["configs"]} ∅ ∅ in
  delete "type" d1 = delete "type" d2
  ∧ file_name_safe "sw1" = true
  ∧ can_save w "sw1"
  ∧ (process_device (Py.parse_path "configs") d1 w).1 = Ok tt
  ∧ files (process_device (Py.parse_path "configs") d1 w).2
    = files (process_device (Py.parse_path "configs") d2 w).2.
Proof.
  intros d1 d2 w.
  assert (delete "type" d1 = delete "type" d2) as Hsame by (by vm_compute).
  assert (can_save w "sw1") as Hsave.
  { unfold can_save. simpl. split; [by apply elem_of_singleton |].
    intros Hin%elem_of_singleton. vm_compute in Hin. discriminate. }
  split; [exact Hsame |]. split; [reflexivity |]. split; [exact Hsave |].
  destruct (device_type_not_in_output d1 d2 w Hsame) as (_ & Hfiles & _ & Hrun).
  split; [| exact Hfiles].
  by rewrite (proj1 (Hrun "sw1" eq_refl eq_refl Hsave)).
Defined.

(** C9: with the empty string as device name, for every range, the
    generator returns its usual list, whose header is the comment prefix
    with nothing after it; the file name derived from it is
    "configs/_vlan_config.txt"; and where the store can take that file,
    the sink writes it and the loop body of [main] runs to its end on such
    a device. *)
Theorem empty_device_name
    (start_vlan end_vlan : Z) (configurations : list string)
    (device : gmap string string) (w : world) :
  generate_vlan_configurations "" (start_vlan, end_vlan)
  = ["! VLAN Configuration for "; "configure terminal"]
    ++ (Py.range start_vlan (end_vlan + 1) ≫= vlan_entry)
    ++ ["end"; "write memory"; ""]
  ∧ artifact_path "" = "configs/_vlan_config.txt"
  ∧ (can_save w "" →
       save_configuration "" configurations (Py.parse_path "configs") w
       = (Ok {| Py.root := ""; Py.parts := ["configs"; "_vlan_config.txt"] |},
          written w "configs/_vlan_config.txt" (Py.join Py.NL configurations))
       ∧ process_device (Py.parse_path "configs") (<["name" := ""]> device) w
         = (Ok tt,
            printed (written w "configs/_vlan_config.txt"
                       (Py.join Py.NL (generate_vlan_configurations "" (5, 10))))
                    (device_transcript "" (type_of device)))).
Proof.
  split; [| split].
  - by rewrite generate_layout.
  - done.
  - intros _. split.
    + by rewrite save_configuration_run.
    + rewrite (process_device_run _ "") by apply lookup_insert_eq.
      unfold type_of. by rewrite lookup_insert_ne.
Qed.

Lemma empty_device_name_witness :
  let w := World [] {["configs"]} ∅ ∅ in
  can_save w ""
  ∧ (process_device (Py.parse_path "configs") (<["name" := ""]> ∅) w).1 = Ok tt.
Proof.
  intros w.
  assert (can_save w "") as Hsave.
  { unfold can_save. simpl. split; [by apply elem_of_singleton |].
    intros Hin%elem_of_singleton. vm_compute in Hin. discriminate. }
  split; [exact Hsave |].
  destruct (empty_device_name 5 10 [] ∅ w) as (_ & _ & Hrun).
  by rewrite (proj2 (Hrun Hsave)).
Defined.

(** C10: whatever fields the device records of the inventory hold, when
    their names are safe as file names and the store can take the files,
    [main] returns normally and gives each device, in inventory order, the
    file of its name with the text generated from that name and the range
    (5, 10). *)
Theorem main_fixed_vlan_range
    (w : world) (d : gmap string pyobj) (devices : list (gmap string string)) :
  inventories w !! "inventory.yml" = Some (Document (PyDict d)) →
  d !! "devices" = Some (PyList devices) →
  Forall safely_named devices →
  store_ready w devices →
  ∃ w' : world,
    main w = (Ok tt, w')
    ∧ files w'
      = foldl (λ fs device,
                 <["configs/" +:+ name_of device +:+ "_vlan_config.txt"
                     := Py.join Py.NL
                          (generate_vlan_configurations (name_of device) (5, 10))]> fs)
              (files w) devices.
Proof.
  intros Hinv Hdev Hsafe _.
  assert (Forall (λ device, is_Some (device !! "name")) devices) as Hnames.
  { eapply Forall_impl; [exact Hsafe |]. intros device (n & Hn & _). by eexists. }
  assert (∀ fs : gmap string string,
            foldl (λ fs device,
                     <["configs/" +:+ name_of device +:+ "_vlan_config.txt"
                         := Py.join Py.NL
                              (generate_vlan_configurations (name_of device) (5, 10))]> fs)
                  fs devices
            = foldl (λ fs device,
                       <[artifact_path (name_of device)
                           := Py.join Py.NL
                                (generate_vlan_configurations (name_of device) (5, 10))]> fs)
                    fs devices) as Hfold.
  { clear Hdev Hnames. induction Hsafe as [| device devices (n & Hn & Hs) _ IH];
      intros fs; [done |].
    simpl. rewrite IH. do 2 f_equal.
    unfold name_of. rewrite Hn. simpl.
    symmetry. apply artifact_path_plain_name. by apply file_name_safe_no_slash. }
  rewrite Hfold.
  rewrite main_unfold.
  rewrite (load_inventory_mapping _ d) by done. rewrite Hdev. simpl.
  destruct devices as [| device devices].
  - eexists. split; [reflexivity | done].
  - rewrite bool_decide_eq_false_2 by done.
    unfold mbind at 1, M_bind at 1, mret at 1, M_ret at 1.
    unfold mbind at 1, M_bind at 1. rewrite print_run.
    unfold mbind at 1, M_bind at 1.
    rewrite for_each_process_device by done.
    unfold mbind at 1, M_bind at 1. rewrite !print_run.
    eexists. split; [reflexivity | done].
Qed.

Lemma main_fixed_vlan_range_witness :
  let sw1 : gmap string string := {["name" := "sw1"; "vlans" := "100-200"]} in
  let d : gmap string pyobj := {["devices" := PyList [sw1]]} in
  let w := World [] ∅ ∅ {["inventory.yml" := Document (PyDict d)]} in
  inventories w !! "inventory.yml" = Some (Document (PyDict d))
  ∧ d !! "devices" = Some (PyList [sw1])
  ∧ Forall safely_named [sw1]
  ∧ store_ready w [sw1]
  ∧ ∃ w' : world,
      main w = (Ok tt, w')
      ∧ files w' !! "configs/sw1_vlan_config.txt"
        = Some (Py.join Py.NL (generate_vlan_configurations "sw1" (5, 10))).
Proof.
  intros sw1 d w.
  assert (inventories w !! "inventory.yml" = Some (Document (PyDict d))) as H1
    by reflexivity.
  assert (d !! "devices" = Some (PyList [sw1])) as H2 by reflexivity.
  assert (Forall safely_named [sw1]) as H3.
  { repeat constructor. exists "sw1". split; reflexivity. }
  assert (store_ready w [sw1]) as H4.
  { split; [reflexivity |]. repeat constructor. apply not_elem_of_empty. }
  split; [exact H1 |]. split; [exact H2 |]. split; [exact H3 |]. split; [exact H4 |].
  destruct (main_fixed_vlan_range w d [sw1] H1 H2 H3 H4) as (w' & Hrun & Hfiles).
  exists w'. split; [exact Hrun |].
  rewrite Hfiles. simpl. apply lookup_insert_eq.
Defined.

(** * Further properties of the script *)

(** ** The generator: what depends on what *)

Section generator_more.

(** X1: the device name reaches the first line only; every command after
    the header comment is the same for all devices. *)
Theorem generate_commands_same_for_all_devices
    (name1 name2 : string) (vlans_range : Z * Z) :
  drop 1 (generate_vlan_configurations name1 vlans_range)
  = drop 1 (generate_vlan_configurations name2 vlans_range).
Proof. destruct vlans_range as [s e]. by rewrite !generate_layout. Qed.

(** X2: a range can be generated in two parts: the text for [start..end]
    is the text for [start..mid] without its footer followed by the text
    for [mid+1..end] without its header. *)
Theorem generate_range_split (device_name : string) (start_vlan mid end_vlan : Z) :
  start_vlan - 1 ≤ mid ≤ end_vlan →
  let first := generate_vlan_configurations device_name (start_vlan, mid) in
  let second := generate_vlan_configurations device_name (mid + 1, end_vlan) in
  generate_vlan_configurations device_name (start_vlan, end_vlan)
  = take (length first - 3) first ++ drop 2 second.
Proof.
  intros Hmid first second. subst first second. rewrite !generate_layout.
  set (hd := ["! VLAN Configuration for " +:+ device_name; "configure terminal"]).
  set (ft := ["end"; "write memory"; ""]).
  assert (Py.range start_vlan (end_vlan + 1)
          = Py.range start_vlan (mid + 1) ++ Py.range (mid + 1) (end_vlan + 1)) as ->.
  { unfold Py.range.
    replace (end_vlan + 1 - start_vlan)
      with ((mid + 1 - start_vlan) + (end_vlan + 1 - (mid + 1))) by lia.
    rewrite seqZ_app by lia. do 2 f_equal. lia. }
  rewrite bind_app.
  set (A := Py.range start_vlan (mid + 1) ≫= vlan_entry).
  set (B := Py.range (mid + 1) (end_vlan + 1) ≫= vlan_entry).
  rewrite (drop_app_length' hd (B ++ ft) 2) by done.
  replace (hd ++ A ++ ft) with ((hd ++ A) ++ ft) by (by rewrite <- app_assoc).
  rewrite (take_app_length' (hd ++ A) ft) by (rewrite !length_app; simpl; lia).
  by rewrite <- !app_assoc.
Qed.

Lemma generate_range_split_witness :
  5 - 1 ≤ 7 ≤ 10
  ∧ generate_vlan_configurations "sw1" (5, 10)
    = take 11 (generate_vlan_configurations "sw1" (5, 7))
      ++ drop 2 (generate_vlan_configurations "sw1" (8, 10)).
Proof.
  split; [lia |].
  apply (generate_range_split "sw1" 5 7 10). lia.
Defined.

(** X3: the command "vlan v" is in the output exactly when [v] lies in the
    range; no header, name, exit or footer line can be taken for one. *)
Theorem vlan_command_iff_in_range (device_name : string) (start_vlan end_vlan v : Z) :
  ("vlan " +:+ pretty v) ∈ generate_vlan_configurations device_name (start_vlan, end_vlan)
  ↔ start_vlan ≤ v ≤ end_vlan.
Proof.
  rewrite generate_layout. split.
  - rewrite !elem_of_app, list_elem_of_bind. intros [Hh | [(u & Hu & Hrange) | Hf]].
    + apply elem_of_cons in Hh as [Hh | Hh]; [simpl in Hh; discriminate |].
      apply list_elem_of_singleton in Hh. simpl in Hh. discriminate.
    + unfold Py.range in Hrange. apply elem_of_seqZ in Hrange.
      unfold vlan_entry in Hu.
      apply elem_of_cons in Hu as [Hu | Hu].
      * unfold Py.format_d in Hu. simpl in Hu. injection Hu as Hu.
        apply pretty_Z_inj in Hu. lia.
      * apply elem_of_cons in Hu as [Hu | Hu]; [simpl in Hu; discriminate |].
        apply list_elem_of_singleton in Hu. simpl in Hu. discriminate.
    + repeat (apply elem_of_cons in Hf as [Hf | Hf]; [simpl in Hf; discriminate |]).
      by apply elem_of_nil in Hf.
  - intros Hv. apply list_elem_of_lookup.
    exists (2 + 3 * Z.to_nat (v - start_vlan) + 0)%nat.
    rewrite <- generate_layout. by rewrite generate_lookup_entry by (done || lia).
Qed.

End generator_more.

(** ** The zero-padded name of a VLAN *)

Section vlan_names.

Lemma pretty_Z_neg (v : Z) : v < 0 → pretty v = "-" +:+ pretty (Z.abs v).
Proof. intros Hv. destruct v as [|p|p]; [lia | lia | done]. Qed.

Lemma pretty_N_length_100 (x : N) :
  (100 ≤ x)%N → (3 ≤ String.length (pretty x))%nat.
Proof.
  intros Hx. unfold pretty, pretty_N. case_decide as H0; [lia |].
  assert (10 ≤ x `div` 10)%N by (apply N.div_le_lower_bound; lia).
  assert (1 ≤ (x `div` 10) `div` 10)%N by (apply N.div_le_lower_bound; lia).
  do 3 (rewrite pretty_N_go_step by lia).
  etrans; [| apply pretty_N_go_grows]. simpl. lia.
Qed.

(** Text of more than three characters belongs to an id outside -99..999. *)
Lemma pretty_Z_short (v : Z) :
  (String.length (pretty v) ≤ 3)%nat → -99 ≤ v ≤ 999.
Proof.
  intros Hlen. split.
  - destruct (decide (-99 ≤ v)) as [| Hlow]; [done |].
    rewrite pretty_Z_neg, string_app_length in Hlen by lia.
    pose proof (pretty_N_length_100 (Z.to_N (Z.abs v))) as H100.
    rewrite pretty_Z_nonneg in Hlen by lia.
    change (String.length "-") with 1%nat in Hlen. lia.
  - destruct (decide (v ≤ 999)) as [| Hhigh]; [done |].
    pose proof (pretty_N_length_large (Z.to_N v)) as H1000.
    rewrite pretty_Z_nonneg in Hlen by lia. lia.
Qed.

Lemma format_03d_length (v : Z) :
  String.length (Py.format_03d v) = Nat.max 3 (String.length (pretty v)).
Proof.
  unfold Py.format_03d. case_bool_decide as Hneg.
  - rewrite (pretty_Z_neg v) by done.
    rewrite !string_app_length, repeat_char_length.
    change (String.length "-") with 1%nat. lia.
  - rewrite Z.abs_eq by lia.
    rewrite !string_app_length, repeat_char_length.
    change (String.length "") with 0%nat. lia.
Qed.

(** Text that already has three characters gets no padding. *)
Lemma format_03d_long (v : Z) :
  (3 ≤ String.length (pretty v))%nat → Py.format_03d v = pretty v.
Proof.
  intros Hlen. unfold Py.format_03d. case_bool_decide as Hneg.
  - rewrite (pretty_Z_neg v) in * by done.
    rewrite string_app_length in Hlen.
    change (String.length "-") with 1%nat in *.
    replace (3 - 1 - String.length (pretty (Z.abs v)))%nat with 0%nat by lia.
    done.
  - rewrite Z.abs_eq in * by lia.
    change (String.length "") with 0%nat.
    replace (3 - 0 - String.length (pretty v))%nat with 0%nat by lia.
    done.
Qed.

Lemma format_03d_small_NoDup : NoDup (Py.format_03d <$> seqZ (-99) 1099).
Proof.
  apply (bool_decide_unpack (NoDup (Py.format_03d <$> seqZ (-99) 1099))).
  vm_compute. exact I.
Qed.

Lemma NoDup_fmap_eq {A B : Type} (f : A → B) (l : list A) (x y : A) :
  NoDup (f <$> l) → x ∈ l → y ∈ l → f x = f y → x = y.
Proof.
  induction l as [|a l IH]; intros Hnd Hx Hy Hf; [by apply elem_of_nil in Hx |].
  rewrite fmap_cons in Hnd. apply NoDup_cons in Hnd as [Ha Hnd].
  apply elem_of_cons in Hx as [-> | Hx]; apply elem_of_cons in Hy as [-> | Hy].
  - done.
  - destruct Ha. rewrite Hf. by apply list_elem_of_fmap_2.
  - destruct Ha. rewrite <- Hf. by apply list_elem_of_fmap_2.
  - by apply IH.
Qed.

(** X4: the padded number is as wide as the plain decimal text or three
    characters, whichever is more; the sign counts, so -5 gives "-05" and
    -1234 is left as it is. *)
Theorem format_03d_width (v : Z) :
  String.length (Py.format_03d v) = Nat.max 3 (String.length (Py.format_d v))
  ∧ ((3 ≤ String.length (Py.format_d v))%nat → Py.format_03d v = Py.format_d v)
  ∧ Py.format_03d (-5) = "-05"
  ∧ Py.format_03d (-1234) = "-1234".
Proof.
  split; [apply format_03d_length |]. split; [apply format_03d_long |]. done.
Qed.

Lemma format_03d_inj (u v : Z) : Py.format_03d u = Py.format_03d v → u = v.
Proof.
  intros Hf.
  pose proof (f_equal String.length Hf) as Hlen.
  rewrite !format_03d_length in Hlen.
  destruct (decide (3 < String.length (pretty u))%nat) as [Hu | Hu].
  - rewrite !format_03d_long in Hf by lia. by apply pretty_Z_inj in Hf.
  - apply (NoDup_fmap_eq Py.format_03d (seqZ (-99) 1099));
      [apply format_03d_small_NoDup | | | done].
    + apply elem_of_seqZ. pose proof (pretty_Z_short u). lia.
    + apply elem_of_seqZ. pose proof (pretty_Z_short v). lia.
Qed.

(** X5: different ids never get the same name line, padded or not. *)
Theorem vlan_name_line_injective (u v : Z) :
  u ≠ v →
  " name VLAN_" +:+ Py.format_03d u ≠ " name VLAN_" +:+ Py.format_03d v.
Proof.
  intros Hne H. apply Hne, format_03d_inj.
  rewrite !(string_app_cons _ _ (Py.format_03d _)), !string_app_nil in H.
  by simplify_eq.
Qed.

Lemma vlan_name_line_injective_witness :
  5 ≠ 50
  ∧ " name VLAN_" +:+ Py.format_03d 5 ≠ " name VLAN_" +:+ Py.format_03d 50.
Proof.
  assert (5 ≠ 50) as Hne by lia.
  split; [exact Hne |].
  exact (vlan_name_line_injective 5 50 Hne).
Defined.

End vlan_names.

(** ** The loader: when it fails and what it touches *)

Section loader_more.

(** X6: whenever the inventory file parses to a document that is not a
    mapping (an empty document, or a list of devices at top level), the
    loader raises [AttributeError]: neither [except] clause catches it,
    nothing is printed and nothing else changes. *)
Theorem load_inventory_non_mapping_raises (path : string) (doc : pyobj) (w : world) :
  inventories w !! path = Some (Document doc) →
  (∀ d, doc ≠ PyDict d) →
  load_inventory path w = (Raise AttributeError, w)
  ∧ (∀ w0, (main w0).1 = Ok tt → inventories w0 !! "inventory.yml" ≠ Some (Document doc)).
Proof.
  intros Hlk Hdoc. split; [by apply (load_inventory_not_a_mapping _ doc) |].
  intros w0 Hok Hinv. rewrite main_unfold in Hok.
  rewrite (load_inventory_not_a_mapping _ doc) in Hok by done. done.
Qed.

Lemma load_inventory_non_mapping_raises_witness :
  let sw1 : gmap string string := {["name" := "sw1"]} in
  let w := World [] ∅ ∅ {["inventory.yml" := Document (PyList [sw1])]} in
  inventories w !! "inventory.yml" = Some (Document (PyList [sw1]))
  ∧ (∀ d, PyList [sw1] ≠ PyDict d)
  ∧ load_inventory "inventory.yml" w = (Raise AttributeError, w).
Proof.
  intros sw1 w.
  assert (inventories w !! "inventory.yml" = Some (Document (PyList [sw1]))) as H1
    by reflexivity.
  assert (∀ d, PyList [sw1] ≠ PyDict d) as H2 by done.
  split; [exact H1 |]. split; [exact H2 |].
  exact (proj1 (load_inventory_non_mapping_raises "inventory.yml" _ w H1 H2)).
Defined.

(** X7: the loader changes nothing but the console, where it prints at
    most one line; it prints one exactly when the file is missing or
    malformed, and then it returns the empty list. *)
Theorem load_inventory_footprint (path : string) (w : world) :
  ∃ notices : list string,
    (load_inventory path w).2 = printed w notices
    ∧ (length notices ≤ 1)%nat
    ∧ (notices ≠ [] ↔ ∀ doc, inventories w !! path ≠ Some (Document doc))
    ∧ (notices ≠ [] → (load_inventory path w).1 = Ok (PyList [])).
Proof.
  destruct (inventories w !! path) as [[msg | doc] |] eqn:Hlk.
  - rewrite (load_inventory_malformed _ msg) by done.
    eexists [_]. repeat split; simpl; done || lia.
  - exists []. rewrite printed_nil.
    assert ((load_inventory path w).2 = w) as ->.
    { destruct doc as [| l | d].
      - by rewrite (load_inventory_not_a_mapping _ PyNone).
      - by rewrite (load_inventory_not_a_mapping _ (PyList l)).
      - by rewrite (load_inventory_mapping _ d). }
    repeat split; simpl; try done; try lia.
    intros H. by destruct (H doc).
  - rewrite load_inventory_missing by done.
    eexists [_]. repeat split; simpl; done || lia.
Qed.

End loader_more.

(** ** The console transcript *)

Section console.

(** X8: [print_configurations] prints a three-line banner and then every
    configuration line once, in order; it touches no file or directory. *)
Theorem print_configurations_transcript
    (device_name : string) (configurations : list string) (w : world) :
  let w' := (print_configurations device_name configurations w).2 in
  (print_configurations device_name configurations w).1 = Ok tt
  ∧ take (length (stdout w)) (stdout w') = stdout w
  ∧ drop (length (stdout w) + 3) (stdout w') = configurations
  ∧ length (stdout w') = (length (stdout w) + 3 + length configurations)%nat
  ∧ stdout w' !! (length (stdout w) + 1)%nat
    = Some ("VLAN Configurations for: " +:+ device_name)
  ∧ files w' = files w ∧ dirs w' = dirs w ∧ inventories w' = inventories w.
Proof.
  intros w'. subst w'. rewrite print_configurations_run. simpl.
  split; [done |]. split; [by rewrite take_app_length |].
  split; [by rewrite (drop_app_add' (stdout w) _ _ 3) |].
  split; [rewrite length_app; simpl; lia |].
  split; [| done].
  rewrite lookup_app_r by lia.
  by replace (length (stdout w) + 1 - length (stdout w))%nat with 1%nat by lia.
Qed.

End console.

(** ** The saved file: where it is and what it holds *)

Section saved_file.

Lemma string_app_assoc (s1 s2 s3 : string) :
  (s1 +:+ s2) +:+ s3 = s1 +:+ (s2 +:+ s3).
Proof.
  induction s1 as [|c s1 IH]; [done |].
  change (String c ((s1 +:+ s2) +:+ s3) = String c (s1 +:+ s2 +:+ s3)).
  by rewrite IH.
Qed.

(** Splitting a text that ends in a separator-free [t]: the last piece
    ends in [t]. *)
Lemma split_app_no_separator (sep : ascii) (s t : string) :
  contains_char sep t = false →
  ∃ (init : list string) (x : string),
    Py.split sep (s +:+ t) = init ++ [x +:+ t].
Proof.
  intros Ht. induction s as [|c s (init & x & IH)].
  - exists [], "". by rewrite !string_app_nil, split_no_separator.
  - rewrite string_app_cons. simpl. rewrite IH. case_bool_decide.
    + by exists ("" :: init), x.
    + destruct init as [|y init]; simpl.
      * by exists [], (String c x).
      * by exists (String c y :: init), x.
Qed.

(** What [splitroot] leaves of a text ending in [t] still ends in [t],
    when [t] does not start with "/". *)
Lemma splitroot_keeps_suffix (s t : string) :
  Py.starts_with "/" t = false →
  ∃ s', (Py.splitroot (s +:+ t)).2 = s' +:+ t.
Proof.
  intros Ht. unfold Py.splitroot.
  destruct s as [|c1 s].
  { rewrite string_app_nil, Ht. simpl. by exists "". }
  rewrite string_app_cons. simpl.
  case_bool_decide; simpl; [| by exists (String c1 s)].
  destruct s as [|c2 s].
  { rewrite string_app_nil, Ht. simpl. by exists "". }
  rewrite string_app_cons. simpl.
  case_bool_decide; simpl; [| by exists (String c2 s)].
  destruct s as [|c3 s].
  { rewrite string_app_nil, Ht. simpl. by exists "". }
  rewrite string_app_cons. simpl.
  case_bool_decide; simpl; [by exists (String c2 (String c3 s)) |].
  by exists (String c3 s).
Qed.

Lemma join_snoc (sep : string) (pre : list string) (y : string) :
  ∃ stem, Py.join sep (pre ++ [y]) = stem +:+ y.
Proof.
  induction pre as [|x pre (stem & IH)].
  - by exists "".
  - exists (x +:+ sep +:+ stem).
    change (Py.join sep ((x :: pre) ++ [y]))
      with (Py.join sep (x :: pre ++ [y])).
    destruct (pre ++ [y]) as [|z rest] eqn:Hrest; [by destruct pre |].
    change (Py.join sep (x :: z :: rest)) with (x +:+ sep +:+ Py.join sep (z :: rest)).
    by rewrite IH, !string_app_assoc.
Qed.

Lemma long_component (x t : string) :
  (2 ≤ String.length t)%nat → Py.is_component (x +:+ t) = true.
Proof.
  intros Ht. unfold Py.is_component.
  rewrite !bool_decide_eq_false_2; [done | |];
    intros H%(f_equal String.length); rewrite string_app_length in H;
    simpl in H; lia.
Qed.

(** Whatever the name, the path ends with the fixed suffix. *)
Lemma artifact_path_suffix (device_name : string) :
  ∃ stem, artifact_path device_name = stem +:+ "_vlan_config.txt".
Proof.
  unfold artifact_path, Py.truediv, Py.parse_path.
  destruct (splitroot_keeps_suffix device_name "_vlan_config.txt" eq_refl)
    as (s' & Hrel).
  destruct (Py.splitroot (device_name +:+ "_vlan_config.txt")) as [r rel] eqn:Hsr.
  simpl in Hrel. subst rel.
  destruct (split_app_no_separator "/" s' "_vlan_config.txt" eq_refl)
    as (init & x & ->).
  rewrite List.filter_app. simpl List.filter.
  rewrite (long_component x "_vlan_config.txt") by (simpl; lia).
  set (last := x +:+ "_vlan_config.txt").
  assert (∀ (r0 : string) (pre : list string),
            ∃ stem, Py.path_str {| Py.root := r0; Py.parts := pre ++ [last] |}
                    = stem +:+ "_vlan_config.txt") as Hstr.
  { intros r0 pre. unfold Py.path_str. simpl.
    destruct (join_snoc "/" pre last) as (stem & ->).
    rewrite bool_decide_eq_false_2.
    - exists (r0 +:+ stem +:+ x). subst last. by rewrite !string_app_assoc.
    - intros H%(f_equal String.length). subst last.
      rewrite !string_app_length in H. simpl in H. lia. }
  simpl. case_bool_decide.
  - simpl. apply (Hstr "" ("configs" :: List.filter Py.is_component init)).
  - apply Hstr.
Qed.

(** X9: whatever the device name is, [save_configuration] changes no file
    whose path does not end with "_vlan_config.txt", and leaves the
    directories, the console and the inventory alone. When the name is
    safe as a file name and the store can take the file, it returns the
    path "configs/{name}_vlan_config.txt" and that file holds the lines
    joined by newlines, every other file being as before; two safe names
    share a file only when they are equal. *)
Theorem save_configuration_one_file
    (device_name : string) (configurations : list string) (w : world) :
  let run := save_configuration device_name configurations (Py.parse_path "configs") w in
  (∀ path, files run.2 !! path ≠ files w !! path →
           ∃ stem, path = stem +:+ "_vlan_config.txt")
  ∧ stdout run.2 = stdout w ∧ dirs run.2 = dirs w ∧ inventories run.2 = inventories w
  ∧ (file_name_safe device_name = true → can_save w device_name →
       run.1 = Ok {| Py.root := "";
                     Py.parts := ["configs"; device_name +:+ "_vlan_config.txt"] |}
       ∧ files run.2
         = <["configs/" +:+ device_name +:+ "_vlan_config.txt"
               := Py.join Py.NL configurations]> (files w)
       ∧ ∀ other, file_name_safe other = true →
                  artifact_path other = artifact_path device_name →
                  other = device_name).
Proof.
  intros run. subst run. rewrite save_configuration_run. unfold written. simpl.
  split; [| split; [done | split; [done | split; [done |]]]].
  - intros path Hne.
    destruct (decide (path = artifact_path device_name)) as [-> | Hother].
    + apply artifact_path_suffix.
    + unfold artifact_path in Hother. by rewrite lookup_insert_ne in Hne.
  - intros Hsafe _. apply file_name_safe_no_slash in Hsafe as Hslash.
    rewrite (truediv_plain_name _ Hslash). split; [done |]. split; [done |].
    intros other Hother. apply artifact_path_plain_inj; [| done].
    by apply file_name_safe_no_slash.
Qed.

Lemma save_configuration_one_file_witness :
  let w := World [] {["configs"]} ∅ ∅ in
  file_name_safe "core_switch_01" = true
  ∧ can_save w "core_switch_01"
  ∧ files (save_configuration "core_switch_01" ["end"; "write memory"; ""]
             (Py.parse_path "configs") w).2
    !! "configs/core_switch_01_vlan_config.txt"
    = Some ("end" +:+ Py.NL +:+ "write memory" +:+ Py.NL).
Proof.
  intros w.
  assert (can_save w "core_switch_01") as Hsave.
  { unfold can_save. simpl. split; [by apply elem_of_singleton |].
    intros Hin%elem_of_singleton. vm_compute in Hin. discriminate. }
  split; [reflexivity |]. split; [exact Hsave |].
  destruct (save_configuration_one_file "core_switch_01"
              ["end"; "write memory"; ""] w) as (_ & _ & _ & _ & Hrun).
  destruct (Hrun eq_refl Hsave) as (_ & -> & _).
  apply lookup_insert_eq.
Defined.

Lemma split_app_separator (sep : ascii) (x t : string) :
  contains_char sep x = false →
  Py.split sep (x +:+ String sep t) = x :: Py.split sep t.
Proof.
  induction x as [|c x IH]; intros Hx.
  - rewrite string_app_nil. simpl. by rewrite bool_decide_eq_true_2.
  - simpl in Hx. apply orb_false_iff in Hx as [Hc Hx].
    rewrite string_app_cons. simpl. rewrite Hc, (IH Hx). done.
Qed.

Lemma split_join (sep : ascii) (lines : list string) :
  lines ≠ [] →
  Forall (λ line, contains_char sep line = false) lines →
  Py.split sep (Py.join (String sep "") lines) = lines.
Proof.
  induction lines as [|x [|y lines] IH]; intros Hne Hall; [done | |].
  - apply Forall_cons in Hall as [Hx _]. by apply split_no_separator.
  - apply Forall_cons in Hall as [Hx Hall].
    change (Py.join (String sep "") (x :: y :: lines))
      with (x +:+ String sep "" +:+ Py.join (String sep "") (y :: lines)).
    rewrite string_app_cons, string_app_nil.
    rewrite split_app_separator by done. f_equal. by apply IH.
Qed.

Lemma count_char_app (c : ascii) (s1 s2 : string) :
  count_char c (s1 +:+ s2) = (count_char c s1 + count_char c s2)%nat.
Proof.
  induction s1 as [|x s1 IH]; [done |].
  rewrite string_app_cons. simpl. rewrite IH. lia.
Qed.

Lemma count_char_absent (c : ascii) (s : string) :
  contains_char c s = false → count_char c s = 0%nat.
Proof.
  induction s as [|x s IH]; [done |]. simpl.
  intros [Hx Hs]%orb_false_iff. by rewrite Hx, IH.
Qed.

Lemma count_char_join (sep : ascii) (lines : list string) :
  Forall (λ line, contains_char sep line = false) lines →
  count_char sep (Py.join (String sep "") lines) = (length lines - 1)%nat.
Proof.
  induction lines as [|x [|y lines] IH]; intros Hall; [done | |].
  - apply Forall_cons in Hall as [Hx _]. simpl. by apply count_char_absent.
  - apply Forall_cons in Hall as [Hx Hall].
    change (Py.join (String sep "") (x :: y :: lines))
      with (x +:+ String sep "" +:+ Py.join (String sep "") (y :: lines)).
    rewrite !count_char_app, (count_char_absent _ _ Hx), (IH Hall).
    simpl. rewrite bool_decide_eq_true_2 by done. lia.
Qed.

(** Decimal text holds digits only, so no newline. *)
Lemma pretty_N_go_no_newline (x : N) :
  ∀ s, contains_char "010" (pretty_N_go x s) = contains_char "010" s.
Proof.
  induction x as [x IH] using (well_founded_induction N.lt_wf_0); intros s.
  destruct (decide (x = 0%N)) as [->|Hx].
  - by rewrite pretty_N_go_0.
  - rewrite pretty_N_go_step by lia.
    rewrite IH by (apply N.div_lt; lia). simpl.
    rewrite bool_decide_eq_false_2; [done |].
    unfold pretty_N_char. repeat case_match; done.
Qed.

Lemma pretty_Z_no_newline (v : Z) : contains_char "010" (pretty v) = false.
Proof.
  assert (∀ n : N, contains_char "010" (pretty n) = false) as HN.
  { intros n. unfold pretty, pretty_N. case_decide; [done |].
    by rewrite pretty_N_go_no_newline. }
  destruct v as [|p|p]; [done | apply HN |].
  change (pretty (Z.neg p)) with ("-" +:+ pretty (N.pos p)).
  rewrite contains_char_app, HN. done.
Qed.

Lemma repeat_char_no_newline (n : nat) :
  contains_char "010" (Py.repeat_char "0" n) = false.
Proof. induction n as [|n IH]; [done |]. simpl. by rewrite IH. Qed.

Lemma generate_no_newline (device_name : string) (start_vlan end_vlan : Z) :
  contains_char "010" device_name = false →
  Forall (λ line, contains_char "010" line = false)
    (generate_vlan_configurations device_name (start_vlan, end_vlan)).
Proof.
  intros Hname. rewrite generate_layout.
  apply Forall_app. split; [| apply Forall_app; split].
  - repeat constructor. by rewrite contains_char_app, Hname.
  - apply Forall_forall. intros line (v & Hline & _)%list_elem_of_bind.
    unfold vlan_entry in Hline.
    apply elem_of_cons in Hline as [-> | Hline].
    { unfold Py.format_d. by rewrite contains_char_app, pretty_Z_no_newline. }
    apply elem_of_cons in Hline as [-> | Hline].
    { unfold Py.format_03d.
      rewrite !contains_char_app, repeat_char_no_newline, pretty_Z_no_newline.
      by case_bool_decide. }
    by apply list_elem_of_singleton in Hline as ->.
  - by repeat constructor.
Qed.

(** X10: when the device name holds no newline, the saved text splits at
    newlines into exactly the generated lines, and it has
    [4 + 3*(end-start+1)] newlines ([4] for a reversed range): that many
    lines of commands, each ended by a newline. *)
Theorem saved_text_round_trip (device_name : string) (start_vlan end_vlan : Z) :
  contains_char "010" device_name = false →
  let configurations :=
    generate_vlan_configurations device_name (start_vlan, end_vlan) in
  Py.split "010" (Py.join Py.NL configurations) = configurations
  ∧ Z.of_nat (count_char "010" (Py.join Py.NL configurations))
    = 4 + 3 * Z.max 0 (end_vlan - start_vlan + 1).
Proof.
  intros Hname configurations. subst configurations.
  pose proof (generate_no_newline _ start_vlan end_vlan Hname) as Hall.
  pose proof (generate_length device_name start_vlan end_vlan) as Hlen.
  split.
  - apply split_join; [| done]. intros H. rewrite H in Hlen. simpl in Hlen. lia.
  - unfold Py.NL. rewrite count_char_join by done. lia.
Qed.

Lemma saved_text_round_trip_witness :
  contains_char "010" "core_switch_01" = false
  ∧ Py.split "010" (artifact_text "core_switch_01")
    = generate_vlan_configurations "core_switch_01" (5, 10).
Proof.
  split; [reflexivity |].
  apply (saved_text_round_trip "core_switch_01" 5 10). reflexivity.
Defined.

End saved_file.

(** ** The batch: partial runs, complete runs, repeated runs *)

Section batch_more.

Lemma named_prefix_all (devices : list (gmap string string)) :
  Forall (λ device, is_Some (device !! "name")) devices →
  named_prefix devices = devices.
Proof.
  induction devices as [|device devices IH]; intros Hall; [done |].
  apply Forall_cons in Hall as [[n Hn] Hall]. simpl. by rewrite Hn, IH.
Qed.

Lemma named_prefix_app (good rest : list (gmap string string)) (bad : gmap string string) :
  Forall (λ device, is_Some (device !! "name")) good →
  bad !! "name" = None →
  named_prefix (good ++ bad :: rest) = good.
Proof.
  intros Hgood Hbad. induction good as [|device good IH]; simpl.
  - by rewrite Hbad.
  - apply Forall_cons in Hgood as [[n Hn] Hgood]. by rewrite Hn, IH.
Qed.

Lemma named_prefix_named (devices : list (gmap string string)) :
  Forall (λ device, is_Some (device !! "name")) (named_prefix devices).
Proof.
  induction devices as [|device devices IH]; simpl; [done |].
  destruct (device !! "name") eqn:Hn; [| done]. constructor; [by rewrite Hn | done].
Qed.

(** The loop on any list: it gets through the named devices at the front
    and stops with [KeyError] at the first one without a name. *)
Lemma for_each_process_device_any (devices : list (gmap string string)) :
  ∀ w : world,
    for_each devices (process_device (Py.parse_path "configs")) w
    = (if bool_decide (named_prefix devices = devices) then Ok tt
       else Raise (KeyError "name"),
       World (stdout w ++ transcripts (named_prefix devices)) (dirs w)
             (save_all (files w) (named_prefix devices)) (inventories w)).
Proof.
  induction devices as [|device devices IH]; intros w.
  - simpl. rewrite app_nil_r. by destruct w.
  - destruct (device !! "name") as [n |] eqn:Hn.
    + assert (named_prefix (device :: devices) = device :: named_prefix devices)
        as -> by (simpl; by rewrite Hn).
      assert (name_of device = n) as Hname by (unfold name_of; by rewrite Hn).
      cbn [for_each]. unfold mbind at 1, M_bind at 1.
      rewrite (process_device_run _ n) by done. rewrite IH.
      unfold transcripts. rewrite bind_cons.
      change (save_all ?fs (device :: ?l))
        with (save_all (<[artifact_path (name_of device)
                            := artifact_text (name_of device)]> fs) l).
      rewrite Hname. unfold printed, written, type_of.
      cbn [stdout dirs files inventories]. rewrite <- app_assoc.
      assert (bool_decide (device :: named_prefix devices = device :: devices)
              = bool_decide (named_prefix devices = devices)) as ->; [| done].
      apply bool_decide_ext. split; [by intros [= ->] | by intros ->].
    + assert (named_prefix (device :: devices) = []) as ->
        by (simpl; by rewrite Hn).
      cbn [for_each]. unfold mbind at 1, M_bind at 1.
      rewrite process_device_nameless by done.
      rewrite bool_decide_eq_false_2 by done.
      unfold transcripts, save_all. simpl. rewrite app_nil_r. by destruct w.
Qed.

(** [main] on an inventory whose "devices" value is a non-empty list. *)
Lemma main_on_list
    (w : world) (d : gmap string pyobj) (devices : list (gmap string string)) :
  inventories w !! "inventory.yml" = Some (Document (PyDict d)) →
  d !! "devices" = Some (PyList devices) →
  devices ≠ [] →
  main w
  = (if bool_decide (named_prefix devices = devices) then Ok tt
     else Raise (KeyError "name"),
     World (stdout w
            ++ ["VLAN Configuration Generator"; "Loading inventory...";
                "✓ Output directory ensured: configs";
                "Found " +:+ pretty (length devices) +:+ " device(s) in inventory"]
            ++ transcripts (named_prefix devices)
            ++ (if bool_decide (named_prefix devices = devices)
                then [Py.NL +:+ "VLAN configuration generation completed!";
                      "All files saved in: configs"]
                else []))
           ({["configs"]} ∪ dirs w)
           (save_all (files w) (named_prefix devices))
           (inventories w)).
Proof.
  intros Hinv Hdev Hne. rewrite main_unfold.
  rewrite (load_inventory_mapping _ d) by done. rewrite Hdev. simpl.
  rewrite bool_decide_eq_false_2 by done.
  unfold mbind at 1, M_bind at 1, mret at 1, M_ret at 1.
  unfold mbind at 1, M_bind at 1. rewrite print_run.
  unfold mbind at 1, M_bind at 1.
  rewrite for_each_process_device_any.
  case_bool_decide.
  - unfold mbind at 1, M_bind at 1. rewrite !print_run.
    unfold printed, after_setup. simpl. do 2 f_equal.
    by rewrite <- !app_assoc.
  - unfold printed, after_setup. simpl. do 2 f_equal.
    by rewrite app_nil_r, <- !app_assoc.
Qed.

(** [main] on any world: how it ends, and what it leaves behind up to the
    console. *)
Lemma main_shape (w : world) :
  ∃ out : list string,
    main w
    = (main_result w,
       World (stdout w ++ out) ({["configs"]} ∪ dirs w)
             (save_all (files w) (batch_of w)) (inventories w)).
Proof.
  unfold main_result, batch_of.
  destruct (inventories w !! "inventory.yml") as [[msg | doc] |] eqn:Hinv.
  - eexists. rewrite main_unfold.
    rewrite (load_inventory_malformed _ msg) by done. simpl.
    rewrite print_run. unfold printed, after_setup. simpl.
    by rewrite <- !app_assoc.
  - destruct doc as [| l | d].
    + eexists. rewrite main_unfold.
      by rewrite (load_inventory_not_a_mapping _ PyNone) by done.
    + eexists. rewrite main_unfold.
      by rewrite (load_inventory_not_a_mapping _ (PyList l)) by done.
    + destruct (d !! "devices") as [[| devices | d'] |] eqn:Hdev.
      * eexists. rewrite main_unfold.
        rewrite (load_inventory_mapping _ d) by done. rewrite Hdev. simpl.
        rewrite print_run. unfold printed, after_setup. simpl.
        by rewrite <- !app_assoc.
      * destruct devices as [| device devices].
        -- eexists. rewrite main_unfold.
           rewrite (load_inventory_mapping _ d) by done. rewrite Hdev. simpl.
           rewrite print_run. unfold printed, after_setup. simpl.
           by rewrite <- !app_assoc.
        -- eexists. by rewrite (main_on_list w d (device :: devices)).
      * destruct (decide (d' = ∅)) as [Hempty | Hsome].
        -- eexists. rewrite main_unfold.
           rewrite (load_inventory_mapping _ d) by done. rewrite Hdev. simpl.
           rewrite !bool_decide_eq_true_2 by done.
           rewrite print_run. unfold printed, after_setup. simpl.
           by rewrite <- !app_assoc.
        -- eexists. rewrite main_unfold.
           rewrite (load_inventory_mapping _ d) by done. rewrite Hdev. simpl.
           rewrite !bool_decide_eq_false_2 by done.
           unfold mbind at 1, M_bind at 1, mret at 1, M_ret at 1.
           unfold mbind at 1, M_bind at 1. rewrite print_run.
           unfold mbind at 1, M_bind at 1, raise.
           unfold printed, after_setup. simpl. by rewrite <- !app_assoc.
      * eexists. rewrite main_unfold.
        rewrite (load_inventory_mapping _ d) by done. rewrite Hdev. simpl.
        rewrite print_run. unfold printed, after_setup. simpl.
        by rewrite <- !app_assoc.
  - eexists. rewrite main_unfold.
    rewrite load_inventory_missing by done. simpl.
    rewrite print_run. unfold printed, after_setup. simpl.
    by rewrite <- !app_assoc.
Qed.

End batch_more.

Section batch_claims.

Lemma save_all_snoc (fs : gmap string string)
    (devices : list (gmap string string)) (device : gmap string string) :
  save_all fs (devices ++ [device])
  = <[artifact_path (name_of device) := artifact_text (name_of device)]>
      (save_all fs devices).
Proof. unfold save_all. by rewrite foldl_app. Qed.

(** A path whose content differs after the batch is the path of one of
    its devices. *)
Lemma save_all_changed (fs : gmap string string)
    (devices : list (gmap string string)) (path : string) :
  save_all fs devices !! path ≠ fs !! path →
  ∃ device, device ∈ devices ∧ path = artifact_path (name_of device).
Proof.
  induction devices as [|device devices IH] using rev_ind; [done |].
  rewrite save_all_snoc. intros Hne.
  destruct (decide (artifact_path (name_of device) = path)) as [<- | Hother].
  - exists device. split; [| done]. apply elem_of_app. right. by apply list_elem_of_singleton.
  - rewrite lookup_insert_ne in Hne by done.
    destruct (IH Hne) as (d0 & Hd0 & ->). exists d0. split; [| done].
    apply elem_of_app. by left.
Qed.

(** With names free of "/", every device of the batch ends up with its
    own text in its own file, even if its name occurs twice. *)
Lemma save_all_lookup_plain (fs : gmap string string)
    (devices : list (gmap string string)) (device : gmap string string) :
  Forall (λ d, contains_char "/" (name_of d) = false) devices →
  device ∈ devices →
  save_all fs devices !! artifact_path (name_of device)
  = Some (artifact_text (name_of device)).
Proof.
  induction devices as [|last devices IH] using rev_ind; intros Hplain Hin.
  { by apply elem_of_nil in Hin. }
  apply Forall_app in Hplain as [Hplain Hlast].
  apply Forall_cons in Hlast as [Hlast _].
  rewrite save_all_snoc.
  destruct (decide (artifact_path (name_of last) = artifact_path (name_of device)))
    as [Hsame | Hother].
  - rewrite Hsame, lookup_insert_eq.
    assert (contains_char "/" (name_of device) = false) as Hdev.
    { apply elem_of_app in Hin as [Hin | Hin].
      - by apply (proj1 (Forall_forall _ _) Hplain).
      - by apply list_elem_of_singleton in Hin as ->. }
    by rewrite (artifact_path_plain_inj _ _ Hlast Hdev Hsame).
  - rewrite lookup_insert_ne by done.
    apply elem_of_app in Hin as [Hin | Hin]; [by apply IH |].
    by apply list_elem_of_singleton in Hin as ->.
Qed.

Lemma safely_named_has_name (devices : list (gmap string string)) :
  Forall safely_named devices →
  Forall (λ device, is_Some (device !! "name")) devices.
Proof.
  intros Hsafe. eapply Forall_impl; [exact Hsafe |].
  intros device (n & Hn & _). by eexists.
Qed.

Lemma safely_named_no_slash (devices : list (gmap string string)) :
  Forall safely_named devices →
  Forall (λ device, contains_char "/" (name_of device) = false) devices.
Proof.
  intros Hsafe. eapply Forall_impl; [exact Hsafe |].
  intros device (n & Hn & Hs). unfold name_of. rewrite Hn. simpl.
  by apply file_name_safe_no_slash.
Qed.

(** X11: a device without a "name" key stops [main] with
    [KeyError("name")]: the devices before it (with names safe as file
    names, in a store that can take their files) have been processed and
    their files written, the devices after it are never reached, and the
    closing summary is not printed. *)
Theorem main_stops_at_nameless_device
    (w : world) (d : gmap string pyobj)
    (good rest : list (gmap string string)) (bad : gmap string string) :
  inventories w !! "inventory.yml" = Some (Document (PyDict d)) →
  d !! "devices" = Some (PyList (good ++ bad :: rest)) →
  Forall safely_named good →
  store_ready w good →
  bad !! "name" = None →
  main w
  = (Raise (KeyError "name"),
     World (stdout w
            ++ ["VLAN Configuration Generator"; "Loading inventory...";
                "✓ Output directory ensured: configs";
                "Found " +:+ pretty (length (good ++ bad :: rest))
                  +:+ " device(s) in inventory"]
            ++ transcripts good)
           ({["configs"]} ∪ dirs w) (save_all (files w) good) (inventories w)).
Proof.
  intros Hinv Hdev Hsafe _ Hbad.
  pose proof (safely_named_has_name good Hsafe) as Hgood.
  rewrite (main_on_list w d (good ++ bad :: rest)) by (done || by destruct good).
  rewrite (named_prefix_app good rest bad Hgood Hbad).
  rewrite !bool_decide_eq_false_2
    by (intros H%(f_equal length); rewrite length_app in H; simpl in H; lia).
  by rewrite app_nil_r.
Qed.

Lemma main_stops_at_nameless_device_witness :
  let sw1 : gmap string string := {["name" := "sw1"]} in
  let bad : gmap string string := {["type" := "cisco_ios"]} in
  let sw3 : gmap string string := {["name" := "sw3"]} in
  let d : gmap string pyobj := {["devices" := PyList [sw1; bad; sw3]]} in
  let w := World [] ∅ ∅ {["inventory.yml" := Document (PyDict d)]} in
  inventories w !! "inventory.yml" = Some (Document (PyDict d))
  ∧ d !! "devices" = Some (PyList ([sw1] ++ bad :: [sw3]))
  ∧ Forall safely_named [sw1]
  ∧ store_ready w [sw1]
  ∧ bad !! "name" = None
  ∧ (main w).1 = Raise (KeyError "name")
  ∧ dom (files (main w).2) = {["configs/sw1_vlan_config.txt"]}.
Proof.
  intros sw1 bad sw3 d w.
  assert (inventories w !! "inventory.yml" = Some (Document (PyDict d))) as H1
    by reflexivity.
  assert (d !! "devices" = Some (PyList ([sw1] ++ bad :: [sw3]))) as H2
    by reflexivity.
  assert (Forall safely_named [sw1]) as H3.
  { repeat constructor. exists "sw1". split; reflexivity. }
  assert (store_ready w [sw1]) as H4.
  { split; [reflexivity |]. repeat constructor. apply not_elem_of_empty. }
  assert (bad !! "name" = None) as H5 by reflexivity.
  repeat (split; [assumption |]).
  rewrite (main_stops_at_nameless_device w d [sw1] [sw3] bad H1 H2 H3 H4 H5).
  split; [done |]. simpl. unfold save_all. simpl.
  by rewrite dom_insert_L, dom_empty_L, union_empty_r_L.
Defined.

(** X12: on a non-empty inventory whose devices all have a name that is
    safe as a file name, in a store that can take their files, [main]
    returns normally and its console output is, in this order: the
    banner, the number of devices, the transcript of each device in
    inventory order, and the two closing lines. *)
Theorem main_complete_run
    (w : world) (d : gmap string pyobj) (devices : list (gmap string string)) :
  inventories w !! "inventory.yml" = Some (Document (PyDict d)) →
  d !! "devices" = Some (PyList devices) →
  devices ≠ [] →
  Forall safely_named devices →
  store_ready w devices →
  main w
  = (Ok tt,
     World (stdout w
            ++ ["VLAN Configuration Generator"; "Loading inventory...";
                "✓ Output directory ensured: configs";
                "Found " +:+ pretty (length devices) +:+ " device(s) in inventory"]
            ++ transcripts devices
            ++ [Py.NL +:+ "VLAN configuration generation completed!";
                "All files saved in: configs"])
           ({["configs"]} ∪ dirs w) (save_all (files w) devices) (inventories w)).
Proof.
  intros Hinv Hdev Hne Hsafe _.
  pose proof (safely_named_has_name devices Hsafe) as Hnames.
  rewrite (main_on_list w d devices) by done.
  rewrite (named_prefix_all devices Hnames).
  by rewrite !bool_decide_eq_true_2.
Qed.

Lemma main_complete_run_witness :
  let sw1 : gmap string string := {["name" := "sw1"]} in
  let d : gmap string pyobj := {["devices" := PyList [sw1]]} in
  let w := World [] ∅ ∅ {["inventory.yml" := Document (PyDict d)]} in
  inventories w !! "inventory.yml" = Some (Document (PyDict d))
  ∧ d !! "devices" = Some (PyList [sw1])
  ∧ [sw1] ≠ []
  ∧ Forall safely_named [sw1]
  ∧ store_ready w [sw1]
  ∧ length (stdout (main w).2) = 34%nat.
Proof.
  intros sw1 d w.
  assert (inventories w !! "inventory.yml" = Some (Document (PyDict d))) as H1
    by reflexivity.
  assert (d !! "devices" = Some (PyList [sw1])) as H2 by reflexivity.
  assert ([sw1] ≠ []) as H3 by discriminate.
  assert (Forall safely_named [sw1]) as H4.
  { repeat constructor. exists "sw1". split; reflexivity. }
  assert (store_ready w [sw1]) as H5.
  { split; [reflexivity |]. repeat constructor. apply not_elem_of_empty. }
  repeat (split; [assumption |]).
  by rewrite (main_complete_run w d [sw1] H1 H2 H3 H4 H5).
Defined.

Lemma batch_of_list
    (w : world) (d : gmap string pyobj) (devices : list (gmap string string)) :
  inventories w !! "inventory.yml" = Some (Document (PyDict d)) →
  d !! "devices" = Some (PyList devices) →
  Forall (λ device, is_Some (device !! "name")) devices →
  main_result w = Ok tt ∧ batch_of w = devices.
Proof.
  intros Hinv Hdev Hnames. unfold main_result, batch_of.
  rewrite Hinv, Hdev, (named_prefix_all _ Hnames).
  by rewrite bool_decide_eq_true_2.
Qed.

(** X13: when every device has a name that is safe as a file name and
    the store can take the files, [main] returns normally and afterwards
    each device of the inventory has its file
    "configs/{name}_vlan_config.txt" holding the text generated for that
    name, duplicates included; files that belong to no device are as they
    were. *)
Theorem main_every_device_has_its_file
    (w : world) (d : gmap string pyobj) (devices : list (gmap string string)) :
  inventories w !! "inventory.yml" = Some (Document (PyDict d)) →
  d !! "devices" = Some (PyList devices) →
  Forall safely_named devices →
  store_ready w devices →
  (main w).1 = Ok tt
  ∧ (∀ device n,
       device ∈ devices → device !! "name" = Some n →
       files (main w).2 !! ("configs/" +:+ n +:+ "_vlan_config.txt")
       = Some (Py.join Py.NL (generate_vlan_configurations n (5, 10))))
  ∧ (∀ path,
       (∀ device n, device ∈ devices → device !! "name" = Some n →
                    path ≠ "configs/" +:+ n +:+ "_vlan_config.txt") →
       files (main w).2 !! path = files w !! path).
Proof.
  intros Hinv Hdev Hplain _.
  pose proof (safely_named_has_name devices Hplain) as Hnames.
  pose proof (safely_named_no_slash devices Hplain) as Hslash.
  destruct (batch_of_list w d devices Hinv Hdev Hnames) as [Hres Hbatch].
  destruct (main_shape w) as [out ->]. rewrite Hres, Hbatch. simpl.
  split; [done |]. split.
  - intros device n Hin Hn.
    assert (name_of device = n) as Hname by (unfold name_of; by rewrite Hn).
    pose proof (save_all_lookup_plain (files w) devices device Hslash Hin) as Hlk.
    rewrite Hname in Hlk. rewrite artifact_path_plain_name in Hlk; [done |].
    rewrite <- Hname. by apply (proj1 (Forall_forall _ _) Hslash).
  - intros path Hpath.
    destruct (decide (save_all (files w) devices !! path = files w !! path))
      as [| Hne]; [done |].
    destruct (save_all_changed _ _ _ Hne) as (device & Hin & ->).
    pose proof (proj1 (Forall_forall _ _) Hplain device Hin) as (n & Hn & Hs).
    destruct (Hpath device n Hin Hn).
    unfold name_of. rewrite Hn. simpl.
    apply artifact_path_plain_name. by apply file_name_safe_no_slash.
Qed.

Lemma main_every_device_has_its_file_witness :
  let sw1 : gmap string string := {["name" := "sw1"]} in
  let sw2 : gmap string string := {["name" := "sw2"; "type" := "arista_eos"]} in
  let d : gmap string pyobj := {["devices" := PyList [sw1; sw2; sw1]]} in
  let w := World [] ∅ ∅ {["inventory.yml" := Document (PyDict d)]} in
  inventories w !! "inventory.yml" = Some (Document (PyDict d))
  ∧ d !! "devices" = Some (PyList [sw1; sw2; sw1])
  ∧ Forall safely_named [sw1; sw2; sw1]
  ∧ store_ready w [sw1; sw2; sw1]
  ∧ files (main w).2 !! "configs/sw2_vlan_config.txt"
    = Some (Py.join Py.NL (generate_vlan_configurations "sw2" (5, 10))).
Proof.
  intros sw1 sw2 d w.
  assert (inventories w !! "inventory.yml" = Some (Document (PyDict d))) as H1
    by reflexivity.
  assert (d !! "devices" = Some (PyList [sw1; sw2; sw1])) as H2 by reflexivity.
  assert (Forall safely_named [sw1; sw2; sw1]) as H3.
  { repeat constructor; eexists; split; reflexivity. }
  assert (store_ready w [sw1; sw2; sw1]) as H4.
  { split; [reflexivity |]. repeat constructor; apply not_elem_of_empty. }
  repeat (split; [assumption |]).
  apply (proj1 (proj2 (main_every_device_has_its_file w d _ H1 H2 H3 H4)) sw2 "sw2").
  - apply elem_of_cons. right. apply elem_of_cons. by left.
  - reflexivity.
Defined.

Lemma save_all_insert_absorb (devices : list (gmap string string)) :
  ∀ (fs : gmap string string) (k v : string),
    <[k := v]> (save_all (<[k := v]> fs) devices) = <[k := v]> (save_all fs devices).
Proof.
  induction devices as [|device devices IH]; intros fs k v.
  - unfold save_all. simpl. by rewrite insert_insert_eq.
  - change (save_all ?m (device :: devices))
      with (save_all (<[artifact_path (name_of device)
                          := artifact_text (name_of device)]> m) devices).
    destruct (decide (artifact_path (name_of device) = k)) as [-> | Hne].
    + by rewrite insert_insert_eq.
    + rewrite (insert_insert_ne _ _ k) by done. apply IH.
Qed.

(** Writing the files of a batch a second time changes nothing. *)
Lemma save_all_idempotent (devices : list (gmap string string)) :
  ∀ fs : gmap string string,
    save_all (save_all fs devices) devices = save_all fs devices.
Proof.
  induction devices as [|device devices IH] using rev_ind; intros fs; [done |].
  rewrite !save_all_snoc.
  by rewrite save_all_insert_absorb, IH.
Qed.

Lemma save_all_keeps (fs : gmap string string)
    (devices : list (gmap string string)) (path : string) :
  is_Some (fs !! path) → is_Some (save_all fs devices !! path).
Proof.
  intros Hsome. induction devices as [|device devices IH] using rev_ind; [done |].
  rewrite save_all_snoc.
  destruct (decide (artifact_path (name_of device) = path)) as [-> | Hne].
  - rewrite lookup_insert_eq. by eexists.
  - by rewrite lookup_insert_ne.
Qed.

(** X14: [main] can be run again: from the world it left, a second run
    ends the same way and changes neither the files nor the directories. *)
Theorem main_rerun (w : world) :
  let w1 := (main w).2 in
  (main w1).1 = (main w).1
  ∧ files (main w1).2 = files w1
  ∧ dirs (main w1).2 = dirs w1.
Proof.
  intros w1. subst w1.
  destruct (main_shape w) as [out ->]. simpl.
  set (w1 := World _ _ _ _).
  destruct (main_shape w1) as [out1 ->]. simpl.
  assert (main_result w1 = main_result w) as -> by done.
  assert (batch_of w1 = batch_of w) as -> by done.
  split; [done |]. split; [apply save_all_idempotent |].
  by rewrite (assoc_L (∪)), (idemp_L (∪)).
Qed.

(** X15: whatever the inventory holds and however the run ends, [main]
    leaves the inventory files alone, makes no directory other than
    "configs", only adds to the console, removes no file, and changes no
    file whose path does not end with "_vlan_config.txt"; when "configs"
    is not a regular file, the directory "configs" exists afterwards. *)
Theorem main_footprint (w : world) :
  let w' := (main w).2 in
  inventories w' = inventories w
  ∧ dirs w ⊆ dirs w'
  ∧ dirs w' ⊆ {["configs"]} ∪ dirs w
  ∧ (files w !! "configs" = None → "configs" ∈ dirs w')
  ∧ stdout w `prefix_of` stdout w'
  ∧ (∀ path, is_Some (files w !! path) → is_Some (files w' !! path))
  ∧ (∀ path, files w' !! path ≠ files w !! path →
             ∃ stem, path = stem +:+ "_vlan_config.txt").
Proof.
  intros w'. subst w'. destruct (main_shape w) as [out ->]. simpl.
  split; [done |]. split; [set_solver |]. split; [done |].
  split; [intros _; set_solver |]. split; [by apply prefix_app_r |].
  split; [intros path; apply save_all_keeps |].
  intros path Hne. destruct (save_all_changed _ _ _ Hne) as (device & _ & ->).
  apply artifact_path_suffix.
Qed.

Lemma main_footprint_witness :
  let w := World [] ∅ ∅ ∅ in
  files w !! "configs" = None ∧ "configs" ∈ dirs (main w).2.
Proof.
  intros w.
  assert (files w !! "configs" = None) as Hdir by reflexivity.
  split; [exact Hdir |].
  destruct (main_footprint w) as (_ & _ & _ & Hmade & _).
  exact (Hmade Hdir).
Defined.

Lemma named_prefix_short (devices : list (gmap string string)) :
  named_prefix devices ≠ devices
  ↔ Exists (λ device, device !! "name" = None) devices.
Proof.
  induction devices as [|device devices IH]; simpl.
  - split; [done | by intros H%Exists_nil].
  - rewrite Exists_cons. destruct (device !! "name") as [n |] eqn:Hn.
    + rewrite <- IH. split.
      * intros H. right. intros Heq. apply H. by rewrite Heq.
      * intros [? | H]; [done |]. intros [= Heq]. by apply H.
    + split; [by left | done].
Qed.

(** X16: when the "devices" value of the inventory is a non-empty mapping
    instead of a list, and "configs" is not a regular file, [main] counts
    the keys, prints "Found n device(s) in inventory" and then raises
    [TypeError] at the first key: no transcript is printed and no file is
    written. *)
Theorem main_devices_mapping_raises
    (w : world) (d d' : gmap string pyobj) :
  files w !! "configs" = None →
  inventories w !! "inventory.yml" = Some (Document (PyDict d)) →
  d !! "devices" = Some (PyDict d') →
  d' ≠ ∅ →
  main w
  = (Raise TypeError,
     World (stdout w
            ++ ["VLAN Configuration Generator"; "Loading inventory...";
                "✓ Output directory ensured: configs";
                "Found " +:+ pretty (size d') +:+ " device(s) in inventory"])
           ({["configs"]} ∪ dirs w) (files w) (inventories w)).
Proof.
  intros _ Hinv Hdev Hsome. rewrite main_unfold.
  rewrite (load_inventory_mapping _ d) by done. rewrite Hdev. simpl.
  rewrite !bool_decide_eq_false_2 by done.
  unfold mbind at 1, M_bind at 1, mret at 1, M_ret at 1.
  unfold mbind at 1, M_bind at 1. rewrite print_run.
  unfold mbind at 1, M_bind at 1, raise.
  unfold printed, after_setup. simpl. by rewrite <- !app_assoc.
Qed.

Lemma main_devices_mapping_raises_witness :
  let d' : gmap string pyobj := {["sw1" := PyNone]} in
  let d : gmap string pyobj := {["devices" := PyDict d']} in
  let w := World [] ∅ ∅ {["inventory.yml" := Document (PyDict d)]} in
  files w !! "configs" = None
  ∧ inventories w !! "inventory.yml" = Some (Document (PyDict d))
  ∧ d !! "devices" = Some (PyDict d')
  ∧ d' ≠ ∅
  ∧ (main w).1 = Raise TypeError
  ∧ files (main w).2 = ∅.
Proof.
  intros d' d w.
  assert (files w !! "configs" = None) as H0 by reflexivity.
  assert (inventories w !! "inventory.yml" = Some (Document (PyDict d))) as H1
    by reflexivity.
  assert (d !! "devices" = Some (PyDict d')) as H2 by reflexivity.
  assert (d' ≠ ∅) as H3.
  { intros H. assert (d' !! "sw1" = Some PyNone) as Hlk by reflexivity.
    rewrite H in Hlk. by rewrite lookup_empty in Hlk. }
  repeat (split; [assumption |]).
  by rewrite (main_devices_mapping_raises w d d' H0 H1 H2 H3).
Defined.

End batch_claims.
